(** * LuckyPay: schema, triggers, row-level security and the dashboard client

    A shallow embedding of the SQL migrations (tables, trigger functions,
    policies) and of the two data-access handlers of [Dashboard.tsx]
    ([fetchTransactions], [handleVerificationPayment]).

    Conventions.
    - A table is the list of its rows, in insertion order; constraints
      (primary key, unique, foreign key, NOT NULL, CHECK) are checked
      explicitly when a row is written.
    - A nullable column is an [option]; SQL comparisons are three-valued
      ([sql_eq], [sql_le], [sql_gt] return [option bool]) and a condition
      holds only when it evaluates to TRUE ([sql_true]).
    - [DECIMAL(15,2)] values are integers counting hundredths; the integer
      literal [n] of the source is [numeric_of_int n].  The 15-digit
      precision bound of the column type is not modelled.
    - A statement runs in the error monad [result]; [commit] is the
      transaction boundary: a failed statement leaves the database as it
      was. *)

From stdpp Require Import base decidable option list strings gmap sorting.
From Stdlib Require Import ZArith Lia.

Local Open Scope string_scope.
Local Open Scope Z_scope.
Local Open Scope list_scope.

(** ** SQL values *)

Abbreviation uuid := string (only parsing).
Abbreviation timestamptz := Z (only parsing).
Abbreviation numeric := Z (only parsing).

Definition numeric_of_int (n : Z) : numeric := 100 * n.

Definition sql_eq {A} `{EqDecision A} (a b : option A) : option bool :=
  match a, b with
  | Some x, Some y => Some (bool_decide (x = y))
  | _, _ => None
  end.

Definition sql_le (a b : option numeric) : option bool :=
  match a, b with
  | Some x, Some y => Some (x <=? y)
  | _, _ => None
  end.

Definition sql_gt (a b : option numeric) : option bool :=
  match a, b with
  | Some x, Some y => Some (x >? y)
  | _, _ => None
  end.

(** [IF c THEN], [USING (c)] and [WITH CHECK (c)] pass on TRUE only. *)
Definition sql_true (c : option bool) : bool :=
  match c with
  | Some true => true
  | _ => false
  end.

(** A [CHECK (c)] constraint fails on FALSE only. *)
Definition sql_check (c : option bool) : bool :=
  match c with
  | Some false => false
  | _ => true
  end.

(** [a IS DISTINCT FROM b]: two NULLs are not distinct. *)
Definition is_distinct_from {A} `{EqDecision A} (a b : option A) : bool :=
  bool_decide (a ≠ b).

Definition coalesce {A} (a : option A) (d : A) : A :=
  match a with
  | Some x => x
  | None => d
  end.

(** [c IN (v1, ..., vn)] *)
Definition sql_in (c : option string) (vs : list string) : option bool :=
  match c with
  | Some x => Some (bool_decide (x ∈ vs))
  | None => None
  end.

(** JSONB values, as far as the schema builds and reads them. *)
#[warnings="-register-all"] Inductive jsonb :=
| JNull
| JNumber (n : numeric)
| JString (s : string)
| JObject (fields : list (string * jsonb)).

Definition jsonb_of_numeric (v : option numeric) : jsonb :=
  match v with
  | Some n => JNumber n
  | None => JNull
  end.

Definition jsonb_build_object (k : string) (v : jsonb) : jsonb :=
  JObject [(k, v)].

(** ** Errors and the statement monad *)

Inductive pg_error :=
| raise_exception (message : string)
| not_null_violation (column : string)
| check_violation (constraint : string)
| unique_violation (constraint : string)
| foreign_key_violation (constraint : string)
| rls_violation (table : string)
| invalid_text_representation.

Inductive result (A : Type) :=
| Ok (a : A)
| Err (e : pg_error).
Arguments Ok {A} a.
Arguments Err {A} e.

Global Instance result_ret : MRet result := λ A, Ok.
Global Instance result_bind : MBind result := λ A B f m,
  match m with
  | Ok a => f a
  | Err e => Err e
  end.

Definition check (b : bool) (e : pg_error) : result unit :=
  if b then Ok tt else Err e.

(** ** Sessions *)

(** The database role of a request: [anon] (no JWT), [authenticated]
    (JWT subject [sub]) or [service_role], which bypasses row security. *)
Inductive role :=
| anon
| authenticated (sub : uuid)
| service_role.

(** [auth.uid()] *)
Definition auth_uid (s : role) : option uuid :=
  match s with
  | authenticated sub => Some sub
  | _ => None
  end.

Definition bypassrls (s : role) : bool :=
  match s with
  | service_role => true
  | _ => false
  end.

(** Values supplied by the server while a statement runs: [now()] and the
    successive results of [gen_random_uuid()]. *)
Record pg_env := {
  now : timestamptz;
  gen_random_uuid : nat → uuid
}.

(** ** Tables *)

Module AuthUsers.
(** [auth.users], owned by the identity provider; the columns the
    triggers read.  [raw_user_meta_data] maps a claim to its text
    ([None] for a JSON null): what [->>] returns for it. *)
Record row := {
  id : uuid;
  phone : option string;
  raw_user_meta_data : option (gmap string (option string))
}.
End AuthUsers.

Module Profiles.
Record row := {
  id : uuid;
  phone_number : option string;
  full_name : option string;
  balance : option numeric;
  is_verified : option bool;
  has_paid_verification : option bool;
  created_at : option timestamptz;
  updated_at : option timestamptz
}.
End Profiles.

Module Transactions.
Record row := {
  id : uuid;
  user_id : option uuid;
  type : option string;
  amount : option numeric;
  recipient_account : option string;
  recipient_name : option string;
  recipient_bank : option string;
  status : option string;
  reference : option string;
  description : option string;
  created_at : option timestamptz
}.
End Transactions.

Module AuditLogs.
Record row := {
  id : uuid;
  user_id : option uuid;
  action : option string;
  table_name : option string;
  old_values : option jsonb;
  new_values : option jsonb;
  ip_address : option string;
  user_agent : option string;
  created_at : option timestamptz
}.
End AuditLogs.

Record database := {
  auth_users : list AuthUsers.row;
  profiles : list Profiles.row;
  transactions : list Transactions.row;
  audit_logs : list AuditLogs.row
}.

Definition empty_database : database :=
  {| auth_users := []; profiles := []; transactions := []; audit_logs := [] |}.

Definition set_auth_users (l : list AuthUsers.row) (d : database) : database :=
  {| auth_users := l; profiles := profiles d;
     transactions := transactions d; audit_logs := audit_logs d |}.

Definition set_profiles (l : list Profiles.row) (d : database) : database :=
  {| auth_users := auth_users d; profiles := l;
     transactions := transactions d; audit_logs := audit_logs d |}.

Definition set_transactions (l : list Transactions.row) (d : database) : database :=
  {| auth_users := auth_users d; profiles := profiles d;
     transactions := l; audit_logs := audit_logs d |}.

Definition set_audit_logs (l : list AuditLogs.row) (d : database) : database :=
  {| auth_users := auth_users d; profiles := profiles d;
     transactions := transactions d; audit_logs := l |}.

(** The transaction boundary: the new state on success, the old one and
    the error when the statement aborts. *)
Definition commit (d : database) (r : result database) : database * option pg_error :=
  match r with
  | Ok d' => (d', None)
  | Err e => (d, Some e)
  end.

(** [v] is the [id] of a row of [auth.users] *)
Definition references_auth_users (d : database) (v : uuid) : bool :=
  bool_decide (v ∈ AuthUsers.id <$> auth_users d).

(** ** Transactions: validator, policies, writes *)

(** [validate_transaction_amount()], BEFORE INSERT OR UPDATE, per row. *)
Definition validate_transaction_amount (NEW : Transactions.row) : result Transactions.row :=
  if sql_true (sql_le (Transactions.amount NEW) (Some (numeric_of_int 0))) then
    Err (raise_exception "Transaction amount must be positive")
  else if sql_true (sql_gt (Transactions.amount NEW) (Some (numeric_of_int 100000000))) then
    Err (raise_exception "Transaction amount exceeds maximum limit")
  else Ok NEW.

(** Policy predicates of [public.transactions]: all four are
    [auth.uid() = user_id]. *)
Definition transactions_policy (s : role) (r : Transactions.row) : bool :=
  bypassrls s || sql_true (sql_eq (auth_uid s) (Transactions.user_id r)).

(** Column and table constraints of [public.transactions] for the row
    [NEW] against the other rows [others]. *)
Definition transactions_constraints (d : database) (others : list Transactions.row)
    (NEW : Transactions.row) : result unit :=
  check (bool_decide (is_Some (Transactions.type NEW))) (not_null_violation "type");;
  check (bool_decide (is_Some (Transactions.amount NEW))) (not_null_violation "amount");;
  check (sql_check (sql_in (Transactions.type NEW)
           ["deposit"; "withdrawal"; "transfer"; "verification_payment"]))
        (check_violation "transactions_type_check");;
  check (sql_check (sql_in (Transactions.status NEW) ["pending"; "completed"; "failed"]))
        (check_violation "transactions_status_check");;
  check (bool_decide (Transactions.id NEW ∉ Transactions.id <$> others))
        (unique_violation "transactions_pkey");;
  check (match Transactions.reference NEW with
         | Some ref => bool_decide (Some ref ∉ Transactions.reference <$> others)
         | None => true
         end)
        (unique_violation "transactions_reference_key");;
  check (match Transactions.user_id NEW with
         | Some u => references_auth_users d u
         | None => true
         end)
        (foreign_key_violation "transactions_user_id_fkey").

(** [INSERT INTO public.transactions] of the row [NEW0] (defaults already
    filled in): the BEFORE trigger, the WITH CHECK policy, the
    constraints, then the row is stored. *)
Definition insert_transaction (s : role) (NEW0 : Transactions.row) (d : database)
    : result database :=
  NEW ← validate_transaction_amount NEW0;
  check (transactions_policy s NEW) (rls_violation "transactions");;
  transactions_constraints d (transactions d) NEW;;
  Ok (set_transactions (transactions d ++ [NEW]) d).

(** The row an [UPDATE ... WHERE id = target] of session [s] acts on:
    the USING policy hides every other row. *)
Definition transactions_target (s : role) (target : uuid) (d : database)
    : option (nat * Transactions.row) :=
  list_find (λ r, Transactions.id r = target ∧ transactions_policy s r) (transactions d).

(** [UPDATE public.transactions SET ... WHERE id = target]; [set] computes
    the new row from the old one.  No visible row: nothing is updated and
    no trigger fires. *)
Definition update_transaction (s : role) (target : uuid)
    (set : Transactions.row → Transactions.row) (d : database) : result database :=
  match transactions_target s target d with
  | None => Ok d
  | Some (i, OLD) =>
      NEW ← validate_transaction_amount (set OLD);
      check (transactions_policy s NEW) (rls_violation "transactions");;
      transactions_constraints d (delete i (transactions d)) NEW;;
      Ok (set_transactions (<[i:=NEW]> (transactions d)) d)
  end.

(** [DELETE FROM public.transactions WHERE id = target] *)
Definition delete_transaction (s : role) (target : uuid) (d : database) : result database :=
  Ok (set_transactions
        (filter (λ r, ¬ (Transactions.id r = target ∧ transactions_policy s r))
                (transactions d)) d).

(** ** Audit log *)

(** The row is stored if the constraints of [public.audit_logs] hold. *)
Definition insert_audit_log_row (NEW : AuditLogs.row) (d : database) : result database :=
  check (bool_decide (is_Some (AuditLogs.action NEW))) (not_null_violation "action");;
  check (bool_decide (is_Some (AuditLogs.table_name NEW))) (not_null_violation "table_name");;
  check (bool_decide (AuditLogs.id NEW ∉ AuditLogs.id <$> audit_logs d))
        (unique_violation "audit_logs_pkey");;
  check (match AuditLogs.user_id NEW with
         | Some u => references_auth_users d u
         | None => true
         end)
        (foreign_key_violation "audit_logs_user_id_fkey");;
  Ok (set_audit_logs (audit_logs d ++ [NEW]) d).

(** Policy "System can insert audit logs": [WITH CHECK (true)]. *)
Definition audit_logs_insert_policy (s : role) (r : AuditLogs.row) : bool :=
  bypassrls s || true.

(** Policy "Users can view their own audit logs". *)
Definition audit_logs_select_policy (s : role) (r : AuditLogs.row) : bool :=
  bypassrls s || sql_true (sql_eq (auth_uid s) (AuditLogs.user_id r)).

(** [INSERT INTO public.audit_logs] through the API. *)
Definition insert_audit_log (s : role) (NEW : AuditLogs.row) (d : database) : result database :=
  check (audit_logs_insert_policy s NEW) (rls_violation "audit_logs");;
  insert_audit_log_row NEW d.

(** ** Profiles: policies, triggers, writes *)

(** Policy predicates of [public.profiles]: all are [auth.uid() = id]. *)
Definition profiles_policy (s : role) (r : Profiles.row) : bool :=
  bypassrls s || sql_true (sql_eq (auth_uid s) (Some (Profiles.id r))).

Definition profiles_constraints (d : database) (others : list Profiles.row)
    (NEW : Profiles.row) : result unit :=
  check (bool_decide (Profiles.id NEW ∉ Profiles.id <$> others))
        (unique_violation "profiles_pkey");;
  check (match Profiles.phone_number NEW with
         | Some p => bool_decide (Some p ∉ Profiles.phone_number <$> others)
         | None => true
         end)
        (unique_violation "profiles_phone_number_key");;
  check (references_auth_users d (Profiles.id NEW))
        (foreign_key_violation "profiles_id_fkey").

(** The row is stored if the constraints of [public.profiles] hold; no
    trigger fires on insert. *)
Definition insert_profile_row (NEW : Profiles.row) (d : database) : result database :=
  profiles_constraints d (profiles d) NEW;;
  Ok (set_profiles (profiles d ++ [NEW]) d).

(** [INSERT INTO public.profiles] through the API. *)
Definition insert_profile (s : role) (NEW : Profiles.row) (d : database) : result database :=
  check (profiles_policy s NEW) (rls_violation "profiles");;
  insert_profile_row NEW d.

(** [j ->> k] on the claims of an identity. *)
Definition json_get_text (j : option (gmap string (option string))) (k : string)
    : option string :=
  match j with
  | Some m =>
      match m !! k with
      | Some v => v
      | None => None
      end
  | None => None
  end.

(** [handle_new_user()], AFTER INSERT ON [auth.users], per row.  The
    function is SECURITY DEFINER: its insert is not subject to the
    policies.  The columns it does not list take their defaults. *)
Definition handle_new_user (env : pg_env) (NEW : AuthUsers.row) (d : database)
    : result database :=
  insert_profile_row
    {| Profiles.id := AuthUsers.id NEW;
       Profiles.phone_number := AuthUsers.phone NEW;
       Profiles.full_name :=
         Some (coalesce (json_get_text (AuthUsers.raw_user_meta_data NEW) "full_name") "");
       Profiles.balance := Some (numeric_of_int 100000);
       Profiles.is_verified := Some false;
       Profiles.has_paid_verification := Some false;
       Profiles.created_at := Some (now env);
       Profiles.updated_at := Some (now env) |}
    d.

(** Creation of an identity: the row enters [auth.users] (primary key
    [id]) and the trigger [on_auth_user_created] runs in the same
    statement. *)
Definition create_identity (env : pg_env) (NEW : AuthUsers.row) (d : database)
    : result database :=
  check (bool_decide (AuthUsers.id NEW ∉ AuthUsers.id <$> auth_users d))
        (unique_violation "users_pkey");;
  handle_new_user env NEW (set_auth_users (auth_users d ++ [NEW]) d).

(** [update_updated_at_column()], BEFORE UPDATE ON [public.profiles]. *)
Definition update_updated_at_column (env : pg_env) (NEW : Profiles.row) : Profiles.row :=
  {| Profiles.id := Profiles.id NEW;
     Profiles.phone_number := Profiles.phone_number NEW;
     Profiles.full_name := Profiles.full_name NEW;
     Profiles.balance := Profiles.balance NEW;
     Profiles.is_verified := Profiles.is_verified NEW;
     Profiles.has_paid_verification := Profiles.has_paid_verification NEW;
     Profiles.created_at := Profiles.created_at NEW;
     Profiles.updated_at := Some (now env) |}.

(** The audit row [log_balance_change()] writes. *)
Definition balance_audit_row (env : pg_env) (TG_OP TG_TABLE_NAME : string)
    (OLD NEW : Profiles.row) : AuditLogs.row :=
  {| AuditLogs.id := gen_random_uuid env 0;
     AuditLogs.user_id := Some (Profiles.id NEW);
     AuditLogs.action := Some TG_OP;
     AuditLogs.table_name := Some TG_TABLE_NAME;
     AuditLogs.old_values :=
       Some (jsonb_build_object "balance" (jsonb_of_numeric (Profiles.balance OLD)));
     AuditLogs.new_values :=
       Some (jsonb_build_object "balance" (jsonb_of_numeric (Profiles.balance NEW)));
     AuditLogs.ip_address := None;
     AuditLogs.user_agent := None;
     AuditLogs.created_at := Some (now env) |}.

(** [log_balance_change()], AFTER UPDATE ON [public.profiles], per row;
    SECURITY DEFINER. *)
Definition log_balance_change (env : pg_env) (TG_OP TG_TABLE_NAME : string)
    (OLD NEW : Profiles.row) (d : database) : result database :=
  if is_distinct_from (Profiles.balance OLD) (Profiles.balance NEW) then
    insert_audit_log_row (balance_audit_row env TG_OP TG_TABLE_NAME OLD NEW) d
  else Ok d.

Definition profiles_target (s : role) (target : uuid) (d : database)
    : option (nat * Profiles.row) :=
  list_find (λ r, Profiles.id r = target ∧ profiles_policy s r) (profiles d).

(** [UPDATE public.profiles SET ... WHERE id = target]: the BEFORE
    trigger [update_profiles_updated_at], the policy on the new row, the
    constraints, the write, then the AFTER trigger
    [log_profile_balance_changes]. *)
Definition update_profile (env : pg_env) (s : role) (target : uuid)
    (set : Profiles.row → Profiles.row) (d : database) : result database :=
  match profiles_target s target d with
  | None => Ok d
  | Some (i, OLD) =>
      let NEW := update_updated_at_column env (set OLD) in
      check (profiles_policy s NEW) (rls_violation "profiles");;
      profiles_constraints d (delete i (profiles d)) NEW;;
      log_balance_change env "UPDATE" "profiles" OLD NEW
        (set_profiles (<[i:=NEW]> (profiles d)) d)
  end.

(** ** Statements and runs *)

(** The statements that reach the database: identity creation by the
    identity provider, and the reads and writes the policies allow
    through the API.  Deleting an identity, which cascades to its rows in
    every table, is not among them. *)
Inductive statement :=
| CreateIdentity (NEW : AuthUsers.row)
| InsertProfile (s : role) (NEW : Profiles.row)
| UpdateProfile (s : role) (target : uuid) (set : Profiles.row → Profiles.row)
| InsertTransaction (s : role) (NEW : Transactions.row)
| UpdateTransaction (s : role) (target : uuid) (set : Transactions.row → Transactions.row)
| DeleteTransaction (s : role) (target : uuid)
| InsertAuditLog (s : role) (NEW : AuditLogs.row).

Definition exec (env : pg_env) (st : statement) (d : database) : result database :=
  match st with
  | CreateIdentity NEW => create_identity env NEW d
  | InsertProfile s NEW => insert_profile s NEW d
  | UpdateProfile s target set => update_profile env s target set d
  | InsertTransaction s NEW => insert_transaction s NEW d
  | UpdateTransaction s target set => update_transaction s target set d
  | DeleteTransaction s target => delete_transaction s target d
  | InsertAuditLog s NEW => insert_audit_log s NEW d
  end.

(** One statement per transaction. *)
Definition step (d : database) (es : pg_env * statement) : database :=
  (commit d (exec es.1 es.2 d)).1.

Definition run (d : database) (trace : list (pg_env * statement)) : database :=
  foldl step d trace.

(** ** The dashboard client *)

(** What [supabase-js] reports in the [error] field of a response: an
    error of the database, or a failure of the transport. *)
Inductive client_error :=
| PostgrestError (e : pg_error)
| FetchError (message : string).

Record response (A : Type) := {
  data : option A;
  error : option client_error
}.
Arguments data {A} r.
Arguments error {A} r.

(** One HTTP request: the role its JWT stands for, a transport failure if
    the request does not reach the server, and the server's values. *)
Record request := {
  session : role;
  fault : option string;
  server : pg_env
}.

(** The calls made on the data-access client, as they are issued. *)
Inductive api_call :=
| select_transactions
| insert_transactions.

(** The [User] object of the session; [id] is the only field read. *)
Record User := { User_id : uuid }.

Record AuthContext := {
  user : option User;
  profile : option Profiles.row
}.

Inductive toast_text :=
| text (s : string)
| error_message (e : client_error).

Record toast_options := {
  title : string;
  description : toast_text;
  variant : string
}.

Module State.
(** State of the [Dashboard] component and what it has emitted: the
    notifications shown and the lines written with [console.error]. *)
Record t := {
  transactions : list Transactions.row;
  loading : bool;
  toasts : list toast_options;
  console : list (string * client_error)
}.
End State.

Record world := {
  db : database;
  auth : AuthContext;
  view : State.t;
  sent : list api_call
}.

(** What a handler's promise resolves to. *)
Inductive js_value :=
| js_undefined
| js_string (s : string).

Definition set_db (d : database) (w : world) : world :=
  {| db := d; auth := auth w; view := view w; sent := sent w |}.

Definition set_auth (a : AuthContext) (w : world) : world :=
  {| db := db w; auth := a; view := view w; sent := sent w |}.

Definition send (c : api_call) (w : world) : world :=
  {| db := db w; auth := auth w; view := view w; sent := sent w ++ [c] |}.

Definition setTransactions (l : list Transactions.row) (w : world) : world :=
  {| db := db w; auth := auth w; sent := sent w;
     view := {| State.transactions := l;
                State.loading := State.loading (view w);
                State.toasts := State.toasts (view w);
                State.console := State.console (view w) |} |}.

Definition setLoading (b : bool) (w : world) : world :=
  {| db := db w; auth := auth w; sent := sent w;
     view := {| State.transactions := State.transactions (view w);
                State.loading := b;
                State.toasts := State.toasts (view w);
                State.console := State.console (view w) |} |}.

Definition toast (t : toast_options) (w : world) : world :=
  {| db := db w; auth := auth w; sent := sent w;
     view := {| State.transactions := State.transactions (view w);
                State.loading := State.loading (view w);
                State.toasts := State.toasts (view w) ++ [t];
                State.console := State.console (view w) |} |}.

Definition console_error (msg : string) (e : client_error) (w : world) : world :=
  {| db := db w; auth := auth w; sent := sent w;
     view := {| State.transactions := State.transactions (view w);
                State.loading := State.loading (view w);
                State.toasts := State.toasts (view w);
                State.console := State.console (view w) ++ [(msg, e)] |} |}.

(** [ORDER BY created_at DESC]: NULLs sort first. *)
Definition created_at_desc (r1 r2 : Transactions.row) : Prop :=
  match Transactions.created_at r1, Transactions.created_at r2 with
  | None, _ => True
  | Some _, None => False
  | Some t1, Some t2 => t2 ≤ t1
  end.

Global Instance created_at_desc_dec r1 r2 : Decision (created_at_desc r1 r2).
Proof.
  unfold created_at_desc.
  destruct (Transactions.created_at r1), (Transactions.created_at r2); apply _.
Defined.

(** [from('transactions').select('*')]: the rows the SELECT policy shows. *)
Definition from_transactions_select (s : role) (d : database) : list Transactions.row :=
  filter (λ r, transactions_policy s r) (transactions d).

(** [.eq('user_id', v)] *)
Definition eq_user_id (v : uuid) (rows : list Transactions.row) : list Transactions.row :=
  filter (λ r, sql_true (sql_eq (Transactions.user_id r) (Some v))) rows.

(** [.order('created_at', { ascending: false })] *)
Definition order_created_at_desc (rows : list Transactions.row) : list Transactions.row :=
  merge_sort created_at_desc rows.

(** [.limit(n)] *)
Definition limit (n : nat) (rows : list Transactions.row) : list Transactions.row :=
  take n rows.

Global Arguments from_transactions_select : simpl never.
Global Arguments eq_user_id : simpl never.
Global Arguments order_created_at_desc : simpl never.
Global Arguments limit : simpl never.

(** The query of [fetchTransactions].  [user?.id] is [undefined] without
    a user, which is no uuid: the server refuses the filter. *)
Definition transactions_query (rq : request) (u : option User) (d : database)
    : response (list Transactions.row) :=
  match fault rq with
  | Some m => {| data := None; error := Some (FetchError m) |}
  | None =>
      match u with
      | None => {| data := None;
                   error := Some (PostgrestError invalid_text_representation) |}
      | Some u =>
          {| data := Some (limit 10 (order_created_at_desc
                       (eq_user_id (User_id u) (from_transactions_select (session rq) d))));
             error := None |}
      end
  end.

(** The row [handleVerificationPayment] inserts, with the defaults of the
    columns it does not give ([id], [reference], [created_at]). *)
Definition verification_payment (env : pg_env) (u : User) : Transactions.row :=
  {| Transactions.id := gen_random_uuid env 0;
     Transactions.user_id := Some (User_id u);
     Transactions.type := Some "verification_payment";
     Transactions.amount := Some (numeric_of_int 6000);
     Transactions.recipient_account := Some "9163110673";
     Transactions.recipient_name := Some "Abdullahi";
     Transactions.recipient_bank := Some "Opay";
     Transactions.status := Some "pending";
     Transactions.reference := Some (gen_random_uuid env 1);
     Transactions.description := Some "Account verification payment to enable withdrawals";
     Transactions.created_at := Some (now env) |}.

(** [from('transactions').insert(row)] without [.select()]: no data comes
    back, only the error if there is one. *)
Definition transactions_insert (rq : request) (NEW : Transactions.row) (d : database)
    : database * response (list Transactions.row) :=
  match fault rq with
  | Some m => (d, {| data := None; error := Some (FetchError m) |})
  | None =>
      match commit d (insert_transaction (session rq) NEW d) with
      | (d', None) => (d', {| data := None; error := None |})
      | (d', Some e) => (d', {| data := None; error := Some (PostgrestError e) |})
      end
  end.

Section Dashboard.

(** [refreshProfile] comes from the authentication context, which is not
    among the sources: it is a parameter.  It reads the caller's profile
    and caches it, so it takes the database to a new context. *)
Variable refreshProfile : request → database → AuthContext → AuthContext.

(** [fetchTransactions]: the error of a failed query is thrown, caught
    and written to the console. *)
Definition fetchTransactions (rq : request) (w : world) : world :=
  let w := send select_transactions w in
  let r := transactions_query rq (user (auth w)) (db w) in
  match error r with
  | Some e => console_error "Error fetching transactions:" e w
  | None => setTransactions (coalesce (data r) []) w
  end.

(** [handleVerificationPayment].  The two reads it starts after a
    successful insert are not awaited; they are run here in the order
    they are started. *)
Definition handleVerificationPayment (rq_insert rq_fetch rq_profile : request) (w : world)
    : world * js_value :=
  match user (auth w), profile (auth w) with
  | Some u, Some _ =>
      let w := setLoading true w in
      let w := send insert_transactions w in
      let '(d, r) := transactions_insert rq_insert
                       (verification_payment (server rq_insert) u) (db w) in
      let w := set_db d w in
      let w :=
        match error r with
        | Some e =>
            toast {| title := "Error";
                     description := error_message e;
                     variant := "destructive" |} w
        | None =>
            let w :=
              toast {| title := "Verification Payment Required";
                       description := text "Please pay ₦6,000 to Account: 9163110673 (Abdullahi - Opay) to verify your account and enable withdrawals.";
                       variant := "default" |} w in
            let w := fetchTransactions rq_fetch w in
            set_auth (refreshProfile rq_profile (db w) (auth w)) w
        end in
      (setLoading false w, js_undefined)
  | _, _ => (w, js_undefined)
  end.

End Dashboard.

(** Modelled from the spec: [getProfile(identity)] of the authentication
    context (not among the sources) is a fresh read of the caller's own
    profile row, under the SELECT policy of [public.profiles]. *)
Definition getProfile (s : role) (identity : uuid) (d : database) : option Profiles.row :=
  snd <$> profiles_target s identity d.

(** The data-access operations the dashboard can start. *)
Inductive client_op :=
| FetchTransactions (rq : request)
| HandleVerificationPayment (rq_insert rq_fetch rq_profile : request)
| RefreshProfile (rq : request).

Definition client_step (refreshProfile : request → database → AuthContext → AuthContext)
    (op : client_op) (w : world) : world :=
  match op with
  | FetchTransactions rq => fetchTransactions rq w
  | HandleVerificationPayment rq_insert rq_fetch rq_profile =>
      (handleVerificationPayment refreshProfile rq_insert rq_fetch rq_profile w).1
  | RefreshProfile rq => set_auth (refreshProfile rq (db w) (auth w)) w
  end.

(** ** Bank accounts

    [public.bank_accounts] is kept beside the [database] record, as the
    list of its rows; the identities its foreign key refers to are those
    of the database. *)

Module BankAccounts.
Record row := {
  id : uuid;
  user_id : option uuid;
  account_number : option string;
  account_name : option string;
  bank_name : option string;
  bank_code : option string;
  is_primary : option bool;
  created_at : option timestamptz
}.
End BankAccounts.

(** Policy predicates of [public.bank_accounts]: all four are
    [auth.uid() = user_id]. *)
Definition bank_accounts_policy (s : role) (r : BankAccounts.row) : bool :=
  bypassrls s || sql_true (sql_eq (auth_uid s) (BankAccounts.user_id r)).

Definition bank_accounts_constraints (d : database) (others : list BankAccounts.row)
    (NEW : BankAccounts.row) : result unit :=
  check (bool_decide (is_Some (BankAccounts.account_number NEW)))
        (not_null_violation "account_number");;
  check (bool_decide (is_Some (BankAccounts.account_name NEW)))
        (not_null_violation "account_name");;
  check (bool_decide (is_Some (BankAccounts.bank_name NEW)))
        (not_null_violation "bank_name");;
  check (bool_decide (BankAccounts.id NEW ∉ BankAccounts.id <$> others))
        (unique_violation "bank_accounts_pkey");;
  check (match BankAccounts.user_id NEW with
         | Some u => references_auth_users d u
         | None => true
         end)
        (foreign_key_violation "bank_accounts_user_id_fkey").

(** [INSERT INTO public.bank_accounts] *)
Definition insert_bank_account (s : role) (NEW : BankAccounts.row) (d : database)
    (accounts : list BankAccounts.row) : result (list BankAccounts.row) :=
  check (bank_accounts_policy s NEW) (rls_violation "bank_accounts");;
  bank_accounts_constraints d accounts NEW;;
  Ok (accounts ++ [NEW]).

(** [UPDATE public.bank_accounts SET ... WHERE id = target] *)
Definition update_bank_account (s : role) (target : uuid)
    (set : BankAccounts.row → BankAccounts.row) (d : database)
    (accounts : list BankAccounts.row) : result (list BankAccounts.row) :=
  match list_find (λ r, BankAccounts.id r = target ∧ bank_accounts_policy s r) accounts with
  | None => Ok accounts
  | Some (i, OLD) =>
      check (bank_accounts_policy s (set OLD)) (rls_violation "bank_accounts");;
      bank_accounts_constraints d (delete i accounts) (set OLD);;
      Ok (<[i:=set OLD]> accounts)
  end.

(** [DELETE FROM public.bank_accounts WHERE id = target] *)
Definition delete_bank_account (s : role) (target : uuid)
    (accounts : list BankAccounts.row) : result (list BankAccounts.row) :=
  Ok (filter (λ r, ¬ (BankAccounts.id r = target ∧ bank_accounts_policy s r)) accounts).

(** [SELECT * FROM public.bank_accounts]: the rows the SELECT policy shows. *)
Definition from_bank_accounts_select (s : role) (accounts : list BankAccounts.row)
    : list BankAccounts.row :=
  filter (λ r, bank_accounts_policy s r) accounts.

(** The writes of the API on the bank accounts. *)
Inductive bank_account_statement :=
| InsertBankAccount (NEW : BankAccounts.row)
| UpdateBankAccount (target : uuid) (set : BankAccounts.row → BankAccounts.row)
| DeleteBankAccount (target : uuid).

Definition exec_bank_account (s : role) (st : bank_account_statement) (d : database)
    (accounts : list BankAccounts.row) : result (list BankAccounts.row) :=
  match st with
  | InsertBankAccount NEW => insert_bank_account s NEW d accounts
  | UpdateBankAccount target set => update_bank_account s target set d accounts
  | DeleteBankAccount target => delete_bank_account s target accounts
  end.

(** ** Commands without a policy *)

(** Row security is enabled on every table.  A command for which a table
    has no policy (UPDATE and DELETE on [audit_logs], DELETE on
    [profiles]) sees no row, unless the role bypasses row security. *)
Definition no_policy (s : role) : bool := bypassrls s.

Definition audit_logs_constraints (d : database) (others : list AuditLogs.row)
    (NEW : AuditLogs.row) : result unit :=
  check (bool_decide (is_Some (AuditLogs.action NEW))) (not_null_violation "action");;
  check (bool_decide (is_Some (AuditLogs.table_name NEW))) (not_null_violation "table_name");;
  check (bool_decide (AuditLogs.id NEW ∉ AuditLogs.id <$> others))
        (unique_violation "audit_logs_pkey");;
  check (match AuditLogs.user_id NEW with
         | Some u => references_auth_users d u
         | None => true
         end)
        (foreign_key_violation "audit_logs_user_id_fkey").

(** [UPDATE public.audit_logs SET ... WHERE id = target] *)
Definition update_audit_log (s : role) (target : uuid)
    (set : AuditLogs.row → AuditLogs.row) (d : database) : result database :=
  match list_find (λ r, AuditLogs.id r = target ∧ no_policy s) (audit_logs d) with
  | None => Ok d
  | Some (i, OLD) =>
      audit_logs_constraints d (delete i (audit_logs d)) (set OLD);;
      Ok (set_audit_logs (<[i:=set OLD]> (audit_logs d)) d)
  end.

(** [DELETE FROM public.audit_logs WHERE id = target] *)
Definition delete_audit_log (s : role) (target : uuid) (d : database) : result database :=
  Ok (set_audit_logs
        (filter (λ r, ¬ (AuditLogs.id r = target ∧ no_policy s)) (audit_logs d)) d).

(** [DELETE FROM public.profiles WHERE id = target] *)
Definition delete_profile (s : role) (target : uuid) (d : database) : result database :=
  Ok (set_profiles
        (filter (λ r, ¬ (Profiles.id r = target ∧ no_policy s)) (profiles d)) d).

(** [SELECT * FROM public.audit_logs]: the rows the SELECT policy shows. *)
Definition from_audit_logs_select (s : role) (d : database) : list AuditLogs.row :=
  filter (λ r, audit_logs_select_policy s r) (audit_logs d).

(** ** What the dashboard renders *)

Inductive lucide_icon :=
| ArrowDownLeft
| ArrowUpRight
| Send
| Shield
| History.

Record icon_element := {
  icon : lucide_icon;
  className : string
}.

Definition getTransactionIcon (type : string) : icon_element :=
  match type with
  | "deposit" => {| icon := ArrowDownLeft; className := "h-4 w-4 text-green-600" |}
  | "withdrawal" => {| icon := ArrowUpRight; className := "h-4 w-4 text-red-600" |}
  | "transfer" => {| icon := Send; className := "h-4 w-4 text-blue-600" |}
  | "verification_payment" => {| icon := Shield; className := "h-4 w-4 text-orange-600" |}
  | _ => {| icon := History; className := "h-4 w-4" |}
  end.

(** [getStatusColor(transaction.status)]; the column is nullable, and
    [null] takes the default branch of the switch. *)
Definition getStatusColor (status : option string) : string :=
  match status with
  | Some "completed" => "bg-green-100 text-green-800"
  | Some "pending" => "bg-yellow-100 text-yellow-800"
  | Some "failed" => "bg-red-100 text-red-800"
  | _ => "bg-gray-100 text-gray-800"
  end.

(** [!b] on a nullable boolean column *)
Definition js_not (b : option bool) : bool :=
  match b with
  | Some true => false
  | _ => true
  end.

(** [profile.full_name || 'User'] in the header *)
Definition welcome_name (p : Profiles.row) : string :=
  match Profiles.full_name p with
  | Some "" => "User"
  | Some n => n
  | None => "User"
  end.

(** [!profile.has_paid_verification]: the verification alert with the
    Pay Now button is rendered *)
Definition verification_alert (p : Profiles.row) : bool :=
  js_not (Profiles.has_paid_verification p).

(** [disabled={!profile.has_paid_verification}] of the Withdraw Funds
    button *)
Definition withdraw_disabled (p : Profiles.row) : bool :=
  js_not (Profiles.has_paid_verification p).

(** The badge [profile.is_verified ? 'Verified' : 'Unverified'] *)
Definition verified_badge (p : Profiles.row) : string :=
  if js_not (Profiles.is_verified p) then "Unverified" else "Verified".

(** ** Well-formed databases *)

(** What the validator and the column constraints ask of a stored
    transaction. *)
Definition transaction_ok (d : database) (r : Transactions.row) : Prop :=
  (∃ a, Transactions.amount r = Some a ∧ 0 < a ≤ numeric_of_int 100000000)
  ∧ (∃ t, Transactions.type r = Some t
        ∧ t ∈ ["deposit"; "withdrawal"; "transfer"; "verification_payment"])
  ∧ (∀ st, Transactions.status r = Some st → st ∈ ["pending"; "completed"; "failed"])
  ∧ (∀ u, Transactions.user_id r = Some u → u ∈ AuthUsers.id <$> auth_users d).

Definition audit_log_ok (d : database) (a : AuditLogs.row) : Prop :=
  is_Some (AuditLogs.action a)
  ∧ is_Some (AuditLogs.table_name a)
  ∧ (∀ u, AuditLogs.user_id a = Some u → u ∈ AuthUsers.id <$> auth_users d).

Record database_ok (d : database) : Prop := {
  ok_users_key : NoDup (AuthUsers.id <$> auth_users d);
  ok_profiles_key : NoDup (Profiles.id <$> profiles d);
  ok_profiles_users :
    ∀ v, v ∈ Profiles.id <$> profiles d ↔ v ∈ AuthUsers.id <$> auth_users d;
  ok_profiles_phone : NoDup (omap Profiles.phone_number (profiles d));
  ok_transactions_key : NoDup (Transactions.id <$> transactions d);
  ok_transactions_reference : NoDup (omap Transactions.reference (transactions d));
  ok_transactions_rows : Forall (transaction_ok d) (transactions d);
  ok_audit_logs_key : NoDup (AuditLogs.id <$> audit_logs d);
  ok_audit_logs_rows : Forall (audit_log_ok d) (audit_logs d)
}.

(** The states some run of statements leads to from the empty database. *)
Definition reachable (d : database) : Prop :=
  ∃ trace, d = run empty_database trace.

(** The session a statement of the API is issued in; the creation of an
    identity is the identity provider's. *)
Definition statement_session (st : statement) : option role :=
  match st with
  | CreateIdentity _ => None
  | InsertProfile s _ => Some s
  | UpdateProfile s _ _ => Some s
  | InsertTransaction s _ => Some s
  | UpdateTransaction s _ _ => Some s
  | DeleteTransaction s _ => Some s
  | InsertAuditLog s _ => Some s
  end.

(** ** Keys and the audit trail *)

(** The primary key of [public.profiles] holds in [d]. *)
Definition profiles_key (d : database) : Prop :=
  NoDup (Profiles.id <$> profiles d).

(** The audit table of [d] records the change of the balance of [uid]
    from [old] to [new]. *)
Definition audited (d : database) (uid : uuid) (old new : option numeric) : Prop :=
  ∃ a, a ∈ audit_logs d
    ∧ AuditLogs.user_id a = Some uid
    ∧ AuditLogs.action a = Some "UPDATE"
    ∧ AuditLogs.table_name a = Some "profiles"
    ∧ AuditLogs.old_values a = Some (JObject [("balance", jsonb_of_numeric old)])
    ∧ AuditLogs.new_values a = Some (JObject [("balance", jsonb_of_numeric new)]).

(** ** A sample database

    Two identities [U] and [V], their profiles, and three transactions;
    used to run the definitions on concrete inputs. *)

Definition pg0 : pg_env :=
  {| now := 1700000000;
     gen_random_uuid := λ n, match n with O => "tx-1" | _ => "ref-1" end |}.

Definition user_U : AuthUsers.row :=
  {| AuthUsers.id := "U";
     AuthUsers.phone := Some "+2348000000001";
     AuthUsers.raw_user_meta_data := Some {[ "full_name" := Some "Amina" ]} |}.

Definition user_V : AuthUsers.row :=
  {| AuthUsers.id := "V";
     AuthUsers.phone := Some "+2348000000002";
     AuthUsers.raw_user_meta_data := None |}.

Definition profile_U : Profiles.row :=
  {| Profiles.id := "U";
     Profiles.phone_number := Some "+2348000000001";
     Profiles.full_name := Some "Amina";
     Profiles.balance := Some (numeric_of_int 100000);
     Profiles.is_verified := Some false;
     Profiles.has_paid_verification := Some false;
     Profiles.created_at := Some 1600000000;
     Profiles.updated_at := Some 1600000000 |}.

Definition profile_V : Profiles.row :=
  {| Profiles.id := "V";
     Profiles.phone_number := Some "+2348000000002";
     Profiles.full_name := Some "";
     Profiles.balance := Some (numeric_of_int 100000);
     Profiles.is_verified := Some false;
     Profiles.has_paid_verification := Some false;
     Profiles.created_at := Some 1600000500;
     Profiles.updated_at := Some 1600000500 |}.

Definition deposit (id owner ref : string) (a : numeric) (t : timestamptz)
    : Transactions.row :=
  {| Transactions.id := id;
     Transactions.user_id := Some owner;
     Transactions.type := Some "deposit";
     Transactions.amount := Some a;
     Transactions.recipient_account := None;
     Transactions.recipient_name := None;
     Transactions.recipient_bank := None;
     Transactions.status := Some "completed";
     Transactions.reference := Some ref;
     Transactions.description := None;
     Transactions.created_at := Some t |}.

Definition db0 : database :=
  {| auth_users := [user_U; user_V];
     profiles := [profile_U; profile_V];
     transactions :=
       [deposit "t1" "U" "r1" (numeric_of_int 500) 1600001000;
        deposit "t2" "V" "r2" (numeric_of_int 700) 1600002000;
        deposit "t3" "U" "r3" (numeric_of_int 900) 1600003000];
     audit_logs := [] |}.

Definition rq0 : request :=
  {| session := authenticated "U"; fault := None; server := pg0 |}.

Definition rq_offline : request :=
  {| session := authenticated "U"; fault := Some "Failed to fetch"; server := pg0 |}.

Definition world0 : world :=
  {| db := db0;
     auth := {| user := Some {| User_id := "U" |}; profile := Some profile_U |};
     view := {| State.transactions := []; State.loading := false;
                State.toasts := []; State.console := [] |};
     sent := [] |}.

(** Modelled from the spec: [refreshProfile] reads the caller's own
    profile row afresh and caches it in the context. *)
Definition refreshProfile0 (rq : request) (d : database) (a : AuthContext) : AuthContext :=
  match user a with
  | Some u => {| user := user a; profile := getProfile (session rq) (User_id u) d |}
  | None => a
  end.

Definition set_balance (b : numeric) (r : Profiles.row) : Profiles.row :=
  {| Profiles.id := Profiles.id r;
     Profiles.phone_number := Profiles.phone_number r;
     Profiles.full_name := Profiles.full_name r;
     Profiles.balance := Some b;
     Profiles.is_verified := Profiles.is_verified r;
     Profiles.has_paid_verification := Profiles.has_paid_verification r;
     Profiles.created_at := Profiles.created_at r;
     Profiles.updated_at := Profiles.updated_at r |}.

Definition set_amount (a : numeric) (r : Transactions.row) : Transactions.row :=
  {| Transactions.id := Transactions.id r;
     Transactions.user_id := Transactions.user_id r;
     Transactions.type := Transactions.type r;
     Transactions.amount := Some a;
     Transactions.recipient_account := Transactions.recipient_account r;
     Transactions.recipient_name := Transactions.recipient_name r;
     Transactions.recipient_bank := Transactions.recipient_bank r;
     Transactions.status := Transactions.status r;
     Transactions.reference := Transactions.reference r;
     Transactions.description := Transactions.description r;
     Transactions.created_at := Transactions.created_at r |}.

(** A withdrawal to 94000.00 by [U], and the state it leads to. *)
Definition db_withdrawn : database :=
  match update_profile pg0 (authenticated "U") "U" (set_balance (numeric_of_int 94000)) db0 with
  | Ok d => d
  | Err _ => db0
  end.

(** [db0] with an audit row that already carries the uuid the server
    generates next. *)
Definition db_clash : database :=
  set_audit_logs
    [{| AuditLogs.id := "tx-1";
        AuditLogs.user_id := Some "V";
        AuditLogs.action := Some "UPDATE";
        AuditLogs.table_name := Some "profiles";
        AuditLogs.old_values := None;
        AuditLogs.new_values := None;
        AuditLogs.ip_address := None;
        AuditLogs.user_agent := None;
        AuditLogs.created_at := None |}]
    db0.

Definition user_W : AuthUsers.row :=
  {| AuthUsers.id := "W";
     AuthUsers.phone := Some "+2348000000003";
     AuthUsers.raw_user_meta_data := Some {[ "full_name" := Some "Chidi" ]} |}.

(** A new identity whose phone number a profile already holds. *)
Definition user_X : AuthUsers.row :=
  {| AuthUsers.id := "X";
     AuthUsers.phone := Some "+2348000000001";
     AuthUsers.raw_user_meta_data := None |}.

Definition db_W : database :=
  match create_identity pg0 user_W db0 with
  | Ok d => d
  | Err _ => db0
  end.

Definition db_paid : database :=
  match insert_transaction (authenticated "U")
          (verification_payment pg0 {| User_id := "U" |}) db0 with
  | Ok d => d
  | Err _ => db0
  end.

Definition world_signed_out : world :=
  {| db := db0;
     auth := {| user := None; profile := None |};
     view := view world0;
     sent := [] |}.


(** The run that leads to [db0]. *)
Definition pg_at (t : timestamptz) : pg_env :=
  {| now := t; gen_random_uuid := gen_random_uuid pg0 |}.

Definition trace0 : list (pg_env * statement) :=
  [(pg_at 1600000000, CreateIdentity user_U);
   (pg_at 1600000500, CreateIdentity user_V);
   (pg0, InsertTransaction (authenticated "U")
           (deposit "t1" "U" "r1" (numeric_of_int 500) 1600001000));
   (pg0, InsertTransaction (authenticated "V")
           (deposit "t2" "V" "r2" (numeric_of_int 700) 1600002000));
   (pg0, InsertTransaction (authenticated "U")
           (deposit "t3" "U" "r3" (numeric_of_int 900) 1600003000))].

Definition set_status (st : string) (r : Transactions.row) : Transactions.row :=
  {| Transactions.id := Transactions.id r;
     Transactions.user_id := Transactions.user_id r;
     Transactions.type := Transactions.type r;
     Transactions.amount := Transactions.amount r;
     Transactions.recipient_account := Transactions.recipient_account r;
     Transactions.recipient_name := Transactions.recipient_name r;
     Transactions.recipient_bank := Transactions.recipient_bank r;
     Transactions.status := Some st;
     Transactions.reference := Transactions.reference r;
     Transactions.description := Transactions.description r;
     Transactions.created_at := Transactions.created_at r |}.

(** An audit row naming [V], as any session may write it. *)
Definition forged_audit_row : AuditLogs.row :=
  {| AuditLogs.id := "a-1";
     AuditLogs.user_id := Some "V";
     AuditLogs.action := Some "UPDATE";
     AuditLogs.table_name := Some "profiles";
     AuditLogs.old_values := Some (JObject [("balance", JNumber (numeric_of_int 100000))]);
     AuditLogs.new_values := Some (JObject [("balance", JNumber (numeric_of_int 0))]);
     AuditLogs.ip_address := None;
     AuditLogs.user_agent := None;
     AuditLogs.created_at := Some 1700000000 |}.

Definition account_U (id : uuid) (primary : bool) : BankAccounts.row :=
  {| BankAccounts.id := id;
     BankAccounts.user_id := Some "U";
     BankAccounts.account_number := Some "0123456789";
     BankAccounts.account_name := Some "Amina";
     BankAccounts.bank_name := Some "Opay";
     BankAccounts.bank_code := None;
     BankAccounts.is_primary := Some primary;
     BankAccounts.created_at := Some 1600005000 |}.

Definition account_V : BankAccounts.row :=
  {| BankAccounts.id := "b-v";
     BankAccounts.user_id := Some "V";
     BankAccounts.account_number := Some "0123456789";
     BankAccounts.account_name := Some "Bola";
     BankAccounts.bank_name := Some "Opay";
     BankAccounts.bank_code := None;
     BankAccounts.is_primary := Some true;
     BankAccounts.created_at := Some 1600006000 |}.

(** * Properties *)

(** ** The statement monad *)

Lemma bind_Ok {A B} (m : result A) (f : A → result B) (b : B) :
  m ≫= f = Ok b ↔ ∃ a, m = Ok a ∧ f a = Ok b.
Proof.
  destruct m as [a|e]; simpl.
  - split; [intros H; by exists a | by intros (a' & [= <-] & H)].
  - split; [done | by intros (a' & [=] & _)].
Qed.

Lemma check_Ok (b : bool) (e : pg_error) (u : unit) : check b e = Ok u ↔ b = true.
Proof. destruct b, u; simpl; split; done. Qed.

Lemma check_Err (b : bool) (e e' : pg_error) : check b e = Err e' ↔ b = false ∧ e' = e.
Proof.
  destruct b; simpl; split.
  - done.
  - by intros [? _].
  - by intros [= ->].
  - by intros [_ ->].
Qed.

Lemma commit_Err_unchanged (d : database) (r : result database) (e : pg_error) :
  (commit d r).2 = Some e → (commit d r).1 = d.
Proof. by destruct r. Qed.

(** ** The amount validator *)

Lemma validate_transaction_amount_Ok (NEW r : Transactions.row) :
  validate_transaction_amount NEW = Ok r → r = NEW.
Proof.
  unfold validate_transaction_amount.
  repeat case_match; congruence.
Qed.

Lemma validate_transaction_amount_Err (NEW : Transactions.row) (e : pg_error) :
  validate_transaction_amount NEW = Err e → ∃ msg, e = raise_exception msg.
Proof.
  unfold validate_transaction_amount.
  repeat case_match; intros [= <-]; eauto.
Qed.

Lemma validate_transaction_amount_rejects (NEW : Transactions.row) (a : numeric) :
  Transactions.amount NEW = Some a →
  (∃ msg, validate_transaction_amount NEW = Err (raise_exception msg))
  ↔ (a ≤ numeric_of_int 0 ∨ numeric_of_int 100000000 < a).
Proof.
  intros Ha. unfold validate_transaction_amount. rewrite Ha. simpl.
  destruct (Z.leb_spec a (numeric_of_int 0)) as [Hle|Hle]; simpl.
  - split; [by left | eauto].
  - rewrite Z.gtb_ltb.
    destruct (Z.ltb_spec (numeric_of_int 100000000) a) as [Hgt|Hgt]; simpl.
    + split; [by right | eauto].
    + split; [by intros [msg [=]] | lia].
Qed.

Lemma transactions_constraints_Err (d : database) (others : list Transactions.row)
    (NEW : Transactions.row) (e : pg_error) :
  transactions_constraints d others NEW = Err e → ∀ msg, e ≠ raise_exception msg.
Proof.
  unfold transactions_constraints, check.
  repeat (case_match; simpl; try by intros [= <-]).
Qed.

Lemma insert_transaction_raises (s : role) (NEW : Transactions.row) (d : database) (msg : string) :
  insert_transaction s NEW d = Err (raise_exception msg)
  ↔ validate_transaction_amount NEW = Err (raise_exception msg).
Proof.
  unfold insert_transaction.
  destruct (validate_transaction_amount NEW) as [r|e] eqn:Hv; simpl;
    [|by split; intros [= ->]].
  split; [|done].
  destruct (check _ _) eqn:Hc; simpl; [|by apply check_Err in Hc as [_ ->]].
  destruct (transactions_constraints _ _ _) eqn:Ht; simpl; [done|].
  intros [= ->]. by eapply transactions_constraints_Err in Ht.
Qed.

Lemma update_transaction_raises (s : role) (target : uuid)
    (set : Transactions.row → Transactions.row) (d : database) (i : nat)
    (OLD : Transactions.row) (msg : string) :
  transactions_target s target d = Some (i, OLD) →
  update_transaction s target set d = Err (raise_exception msg)
  ↔ validate_transaction_amount (set OLD) = Err (raise_exception msg).
Proof.
  intros Ht. unfold update_transaction. rewrite Ht.
  destruct (validate_transaction_amount (set OLD)) as [r|e] eqn:Hv; simpl;
    [|by split; intros [= ->]].
  split; [|done].
  destruct (check _ _) eqn:Hc; simpl; [|by apply check_Err in Hc as [_ ->]].
  destruct (transactions_constraints _ _ _) eqn:Hk; simpl; [done|].
  intros [= ->]. by eapply transactions_constraints_Err in Hk.
Qed.

Lemma commit_raises (d : database) (r : result database) (e : pg_error) :
  commit d r = (d, Some e) ↔ r = Err e.
Proof.
  destruct r as [d'|e']; simpl; split; try done; by intros [= <-].
Qed.

(** C1. On insert or update of a transaction row whose amount is [a], the
    write is aborted by the validator's exception, leaving the database as
    it was, if and only if [a ≤ 0] or [a > 100000000]; an amount with
    [0 < a ≤ 100000000] passes the validator, which hands the row on
    unchanged. *)
Theorem validate_transaction_amount_bounds (s : role) (d : database)
    (NEW : Transactions.row) (a : numeric) :
  Transactions.amount NEW = Some a →
  ((∃ msg, validate_transaction_amount NEW = Err (raise_exception msg))
     ↔ (a ≤ numeric_of_int 0 ∨ a > numeric_of_int 100000000))
  ∧ ((∃ msg, commit d (insert_transaction s NEW d) = (d, Some (raise_exception msg)))
     ↔ (a ≤ numeric_of_int 0 ∨ a > numeric_of_int 100000000))
  ∧ (∀ target set i OLD,
       transactions_target s target d = Some (i, OLD) → set OLD = NEW →
       (∃ msg, commit d (update_transaction s target set d) = (d, Some (raise_exception msg)))
       ↔ (a ≤ numeric_of_int 0 ∨ a > numeric_of_int 100000000))
  ∧ (0 < a ≤ numeric_of_int 100000000 → validate_transaction_amount NEW = Ok NEW).
Proof.
  intros Ha.
  pose proof (validate_transaction_amount_rejects NEW a Ha) as Hv.
  assert (Hgt : ∀ b : Z, a > b ↔ b < a) by (intros; lia).
  setoid_rewrite Hgt.
  split_and!.
  - done.
  - rewrite <- Hv. by setoid_rewrite commit_raises; setoid_rewrite insert_transaction_raises.
  - intros target set i OLD Ht <-. rewrite <- Hv.
    setoid_rewrite commit_raises.
    by setoid_rewrite (update_transaction_raises s target set d i OLD _ Ht).
  - intros [Hlo Hhi].
    destruct (validate_transaction_amount NEW) as [r|e] eqn:Hr.
    + by apply validate_transaction_amount_Ok in Hr as ->.
    + destruct (validate_transaction_amount_Err _ _ Hr) as [msg ->].
      assert (a ≤ numeric_of_int 0 ∨ numeric_of_int 100000000 < a) by (apply Hv; eauto).
      unfold numeric_of_int in *. lia.
Qed.

(** ** The balance audit *)

Lemma insert_audit_log_row_Ok (NEW : AuditLogs.row) (d d' : database) :
  insert_audit_log_row NEW d = Ok d' →
  d' = set_audit_logs (audit_logs d ++ [NEW]) d
  ∧ AuditLogs.id NEW ∉ AuditLogs.id <$> audit_logs d.
Proof.
  unfold insert_audit_log_row.
  intros H. repeat (apply bind_Ok in H as ([] & ?%check_Ok & H)).
  injection H as <-. split; [done|]. by eapply bool_decide_eq_true_1.
Qed.

Lemma log_balance_change_Ok (env : pg_env) (op tbl : string) (OLD NEW : Profiles.row)
    (d d' : database) :
  log_balance_change env op tbl OLD NEW d = Ok d' →
  d' = set_audit_logs
         (audit_logs d ++
            if is_distinct_from (Profiles.balance OLD) (Profiles.balance NEW)
            then [balance_audit_row env op tbl OLD NEW] else []) d.
Proof.
  unfold log_balance_change. case_match.
  - by intros [-> _]%insert_audit_log_row_Ok.
  - intros [= <-]. rewrite app_nil_r. by destruct d.
Qed.

Lemma update_profile_Ok (env : pg_env) (s : role) (target : uuid)
    (set : Profiles.row → Profiles.row) (d d' : database) (i : nat) (OLD : Profiles.row) :
  profiles_target s target d = Some (i, OLD) →
  update_profile env s target set d = Ok d' →
  let NEW := update_updated_at_column env (set OLD) in
  profiles_constraints d (delete i (profiles d)) NEW = Ok tt
  ∧ auth_users d' = auth_users d
  ∧ profiles d' = <[i:=NEW]> (profiles d)
  ∧ transactions d' = transactions d
  ∧ audit_logs d' =
      audit_logs d ++
        if is_distinct_from (Profiles.balance OLD) (Profiles.balance NEW)
        then [balance_audit_row env "UPDATE" "profiles" OLD NEW] else [].
Proof.
  intros Ht H NEW. unfold update_profile in H. rewrite Ht in H. fold NEW in H.
  apply bind_Ok in H as ([] & _ & H).
  apply bind_Ok in H as ([] & Hc & H).
  by apply log_balance_change_Ok in H as ->.
Qed.

(** C2. An update of a profile row appends exactly one audit row if the
    old and the new balance differ, and none if they are equal.  The row
    appended carries the old and the new balance as JSON snapshots, the
    operation [UPDATE] and the table name [profiles]. *)
Theorem log_balance_change_iff_balance_differs (env : pg_env) (s : role) (target : uuid)
    (set : Profiles.row → Profiles.row) (d d' : database) (i : nat) (OLD : Profiles.row) :
  profiles_target s target d = Some (i, OLD) →
  update_profile env s target set d = Ok d' →
  let NEW := update_updated_at_column env (set OLD) in
  Profiles.balance NEW = Profiles.balance (set OLD)
  ∧ profiles d' = <[i:=NEW]> (profiles d)
  ∧ (Profiles.balance OLD ≠ Profiles.balance NEW →
       ∃ a, audit_logs d' = audit_logs d ++ [a]
         ∧ AuditLogs.user_id a = Some (Profiles.id NEW)
         ∧ AuditLogs.action a = Some "UPDATE"
         ∧ AuditLogs.table_name a = Some "profiles"
         ∧ AuditLogs.old_values a =
             Some (JObject [("balance", jsonb_of_numeric (Profiles.balance OLD))])
         ∧ AuditLogs.new_values a =
             Some (JObject [("balance", jsonb_of_numeric (Profiles.balance NEW))]))
  ∧ (Profiles.balance OLD = Profiles.balance NEW → audit_logs d' = audit_logs d)
  ∧ (List.length (audit_logs d') = S (List.length (audit_logs d))
       ↔ Profiles.balance OLD ≠ Profiles.balance NEW).
Proof.
  intros Ht Hu NEW.
  destruct (update_profile_Ok _ _ _ _ _ _ _ _ Ht Hu) as (_ & _ & Hp & _ & Ha).
  fold NEW in Hp, Ha. unfold is_distinct_from in Ha.
  split_and!; [done | done | | |].
  - intros Hne. rewrite bool_decide_eq_true_2 in Ha by done.
    eexists. split; [exact Ha|]. by split_and!.
  - intros Heq. rewrite bool_decide_eq_false_2 in Ha by (intros Hne; by apply Hne).
    by rewrite app_nil_r in Ha.
  - rewrite Ha. case_bool_decide as Hne; rewrite length_app; simpl.
    + split; [done | lia].
    + split; [lia | done].
Qed.

(** ** Identity provisioning *)

Lemma profiles_constraints_Ok (d : database) (others : list Profiles.row) (NEW : Profiles.row) :
  profiles_constraints d others NEW = Ok tt →
  Profiles.id NEW ∉ Profiles.id <$> others.
Proof.
  unfold profiles_constraints. intros H.
  apply bind_Ok in H as ([] & H%check_Ok & _).
  by eapply bool_decide_eq_true_1.
Qed.

Lemma insert_profile_row_Ok (NEW : Profiles.row) (d d' : database) :
  insert_profile_row NEW d = Ok d' →
  d' = set_profiles (profiles d ++ [NEW]) d
  ∧ Profiles.id NEW ∉ Profiles.id <$> profiles d.
Proof.
  unfold insert_profile_row. intros H.
  apply bind_Ok in H as ([] & Hc%profiles_constraints_Ok & [= <-]). done.
Qed.

Lemma filter_id_fresh (l : list Profiles.row) (v : uuid) :
  v ∉ Profiles.id <$> l → filter (λ r, Profiles.id r = v) l = [].
Proof.
  intros Hv. induction l as [|r l IH]; [done|].
  rewrite fmap_cons, not_elem_of_cons in Hv. destruct Hv as [Hne Hv].
  rewrite filter_cons_False by (intros Heq; by apply Hne). by apply IH.
Qed.

(** C3. After the creation of an identity there is exactly one profile row
    for it: its phone number is the identity's, its name is the
    [full_name] claim, or the empty string when the claim is missing or
    null, its balance is 100000.00 and both verification flags are false.
    If the trigger's insert fails, so does the creation of the identity,
    and the database is as before. *)
Theorem handle_new_user_provisions_profile (env : pg_env) (NEW : AuthUsers.row) (d : database) :
  (∀ d', create_identity env NEW d = Ok d' →
     ∃ p, filter (λ r, Profiles.id r = AuthUsers.id NEW) (profiles d') = [p]
       ∧ Profiles.id p = AuthUsers.id NEW
       ∧ Profiles.phone_number p = AuthUsers.phone NEW
       ∧ (∀ m n, AuthUsers.raw_user_meta_data NEW = Some m →
                 m !! "full_name" = Some (Some n) → Profiles.full_name p = Some n)
       ∧ (AuthUsers.raw_user_meta_data NEW = None
          ∨ (∃ m, AuthUsers.raw_user_meta_data NEW = Some m
                ∧ (m !! "full_name" = None ∨ m !! "full_name" = Some None)) →
          Profiles.full_name p = Some "")
       ∧ Profiles.balance p = Some (numeric_of_int 100000)
       ∧ Profiles.is_verified p = Some false
       ∧ Profiles.has_paid_verification p = Some false)
  ∧ (∀ e, handle_new_user env NEW (set_auth_users (auth_users d ++ [NEW]) d) = Err e →
       ∃ e', commit d (create_identity env NEW d) = (d, Some e')).
Proof.
  split.
  - intros d' H. unfold create_identity in H.
    apply bind_Ok in H as ([] & _ & H).
    apply insert_profile_row_Ok in H as [-> Hfresh]. simpl in *.
    eexists. split_and!.
    + rewrite filter_app, filter_id_fresh by done.
      by rewrite filter_cons_True.
    + done.
    + done.
    + intros m n Hm Hn. simpl. by rewrite Hm; simpl; rewrite Hn.
    + intros [Hm|(m & Hm & [Hn|Hn])]; simpl; rewrite Hm; simpl; [done| |]; by rewrite Hn.
    + done.
    + done.
    + done.
  - intros e He. unfold create_identity, check.
    case_bool_decide; simpl; [rewrite He|]; eauto.
Qed.

(** ** Runs: the primary key of profiles and the audit trail *)

Lemma key_lookup_inj {A B} (f : A → B) (l : list A) (i j : nat) (x y : A) :
  NoDup (f <$> l) → l !! i = Some x → l !! j = Some y → f x = f y → i = j.
Proof.
  intros Hnd Hi Hj Hf.
  apply (NoDup_lookup (f <$> l) i j (f x) Hnd); rewrite list_lookup_fmap.
  - by rewrite Hi.
  - by rewrite Hj, Hf.
Qed.

Lemma NoDup_fmap_insert {A B} (f : A → B) (l : list A) (i : nat) (x : A) :
  NoDup (f <$> l) → f x ∉ f <$> delete i l → NoDup (f <$> <[i:=x]> l).
Proof.
  intros Hnd Hx.
  destruct (decide (i < List.length l)%nat) as [Hi|Hi].
  - destruct (lookup_lt_is_Some_2 l i Hi) as [y Hy].
    rewrite insert_take_drop by done.
    rewrite delete_take_drop in Hx.
    rewrite <- (take_drop_middle l i y Hy) in Hnd.
    rewrite fmap_app, fmap_cons in Hnd |- *. rewrite fmap_app in Hx.
    apply NoDup_app in Hnd as (H1 & H2 & [H3 H4]%NoDup_cons).
    apply not_elem_of_app in Hx as [Hx1 Hx2].
    apply NoDup_app. split_and!; [done| |].
    + intros z Hz [->|Hz']%elem_of_cons; [done|].
      apply (H2 z Hz). by right.
    + by apply NoDup_cons.
  - by rewrite list_insert_ge by lia.
Qed.

Lemma list_find_lookup {A} (P : A → Prop) `{∀ x, Decision (P x)} (l : list A)
    (i : nat) (x : A) :
  list_find P l = Some (i, x) → l !! i = Some x ∧ P x.
Proof. intros (? & ? & _)%list_find_Some. done. Qed.

Lemma insert_transaction_Ok (s : role) (NEW : Transactions.row) (d d' : database) :
  insert_transaction s NEW d = Ok d' →
  d' = set_transactions (transactions d ++ [NEW]) d
  ∧ transactions_policy s NEW = true.
Proof.
  unfold insert_transaction. intros H.
  apply bind_Ok in H as (r & ->%validate_transaction_amount_Ok & H).
  apply bind_Ok in H as ([] & Hp%check_Ok & H).
  apply bind_Ok in H as ([] & _ & [= <-]). done.
Qed.

Lemma update_transaction_Ok (s : role) (target : uuid)
    (set : Transactions.row → Transactions.row) (d d' : database) :
  update_transaction s target set d = Ok d' → ∃ l, d' = set_transactions l d.
Proof.
  unfold update_transaction. destruct (transactions_target s target d) as [[i OLD]|].
  - intros H.
    apply bind_Ok in H as (r & _ & H).
    apply bind_Ok in H as ([] & _ & H).
    apply bind_Ok in H as ([] & _ & [= <-]). eauto.
  - intros [= <-]. exists (transactions d). by destruct d.
Qed.

(** What a statement can do to the profiles and to the audit log. *)
Lemma exec_effect (env : pg_env) (st : statement) (d d' : database) :
  exec env st d = Ok d' →
  (∃ l, audit_logs d' = audit_logs d ++ l)
  ∧ (profiles d' = profiles d
     ∨ (∃ p, profiles d' = profiles d ++ [p] ∧ Profiles.id p ∉ Profiles.id <$> profiles d)
     ∨ (∃ s target set i OLD,
          st = UpdateProfile s target set ∧ profiles_target s target d = Some (i, OLD))).
Proof.
  destruct st as [NEW|s NEW|s target set|s NEW|s target set|s target|s NEW]; simpl; intros H.
  - unfold create_identity in H. apply bind_Ok in H as ([] & _ & H).
    apply insert_profile_row_Ok in H as [-> Hfresh]. simpl in *.
    split; [exists []; by rewrite app_nil_r | right; left; eauto].
  - unfold insert_profile in H. apply bind_Ok in H as ([] & _ & H).
    apply insert_profile_row_Ok in H as [-> Hfresh]. simpl.
    split; [exists []; by rewrite app_nil_r | right; left; eauto].
  - destruct (profiles_target s target d) as [[i OLD]|] eqn:Ht.
    + destruct (update_profile_Ok _ _ _ _ _ _ _ _ Ht H) as (_ & _ & _ & _ & Ha).
      split; [eauto | right; right; by exists s, target, set, i, OLD].
    + unfold update_profile in H. rewrite Ht in H. injection H as <-.
      split; [exists []; by rewrite app_nil_r | by left].
  - apply insert_transaction_Ok in H as [-> _]. simpl.
    split; [exists []; by rewrite app_nil_r | by left].
  - apply update_transaction_Ok in H as [l ->]. simpl.
    split; [exists []; by rewrite app_nil_r | by left].
  - unfold delete_transaction in H. injection H as <-. simpl.
    split; [exists []; by rewrite app_nil_r | by left].
  - unfold insert_audit_log in H. apply bind_Ok in H as ([] & _ & H).
    apply insert_audit_log_row_Ok in H as [-> _]. simpl.
    split; [eauto | by left].
Qed.

Lemma exec_profiles_key (env : pg_env) (st : statement) (d d' : database) :
  profiles_key d → exec env st d = Ok d' → profiles_key d'.
Proof.
  unfold profiles_key. intros Hk H.
  destruct (exec_effect _ _ _ _ H) as [_ [Hp|[(p & Hp & Hfresh)|(s & target & set & i & OLD & -> & Ht)]]].
  - by rewrite Hp.
  - rewrite Hp, fmap_app. apply NoDup_app. split_and!; [done| |].
    + intros v Hv [->|[]%elem_of_nil]%elem_of_cons. done.
    + apply NoDup_singleton.
  - simpl in H.
    destruct (update_profile_Ok _ _ _ _ _ _ _ _ Ht H) as (Hc%profiles_constraints_Ok & _ & -> & _).
    by apply NoDup_fmap_insert.
Qed.

Lemma step_profiles_key (d : database) (es : pg_env * statement) :
  profiles_key d → profiles_key (step d es).
Proof.
  intros Hk. unfold step.
  destruct (exec es.1 es.2 d) as [d'|e] eqn:H; simpl; [|done].
  by eapply exec_profiles_key.
Qed.

Lemma run_profiles_key (d : database) (trace : list (pg_env * statement)) :
  profiles_key d → profiles_key (run d trace).
Proof.
  revert d. induction trace as [|es trace IH]; intros d Hk; simpl; [done|].
  by apply IH, step_profiles_key.
Qed.

Lemma step_audit_logs (d : database) (es : pg_env * statement) (a : AuditLogs.row) :
  a ∈ audit_logs d → a ∈ audit_logs (step d es).
Proof.
  intros Ha. unfold step.
  destruct (exec es.1 es.2 d) as [d'|e] eqn:H; simpl; [|done].
  destruct (exec_effect _ _ _ _ H) as [[l ->] _].
  apply elem_of_app. by left.
Qed.

Lemma run_audit_logs (d : database) (trace : list (pg_env * statement)) (a : AuditLogs.row) :
  a ∈ audit_logs d → a ∈ audit_logs (run d trace).
Proof.
  revert d. induction trace as [|es trace IH]; intros d Ha; simpl; [done|].
  by apply IH, step_audit_logs.
Qed.

(** A step that changes the balance of a profile leaves the audit row. *)
Lemma step_balance_change (d : database) (es : pg_env * statement) (p p' : Profiles.row) :
  profiles_key d →
  p ∈ profiles d → p' ∈ profiles (step d es) →
  Profiles.id p = Profiles.id p' → Profiles.balance p ≠ Profiles.balance p' →
  audited (step d es) (Profiles.id p) (Profiles.balance p) (Profiles.balance p').
Proof.
  intros Hk [k Hp]%list_elem_of_lookup Hp' Hid Hbal. unfold step in *.
  destruct (exec es.1 es.2 d) as [d'|e] eqn:H; simpl in *.
  - destruct (exec_effect _ _ _ _ H)
      as [_ [Heq|[(q & Heq & Hfresh)|(s & target & set & i & OLD & Hst & Ht)]]].
    + rewrite Heq in Hp'. apply list_elem_of_lookup in Hp' as [j Hp'].
      assert (k = j) by (by eapply (key_lookup_inj Profiles.id)). naive_solver.
    + rewrite Heq in Hp'. apply elem_of_app in Hp' as [[j Hp']%list_elem_of_lookup|Hq].
      * assert (k = j) by (by eapply (key_lookup_inj Profiles.id)). naive_solver.
      * apply list_elem_of_singleton in Hq as ->. exfalso. apply Hfresh.
        rewrite <- Hid. apply list_elem_of_fmap. exists p.
        split; [done | by eapply list_elem_of_lookup_2].
    + rewrite Hst in H. simpl in H.
      destruct (update_profile_Ok _ _ _ _ _ _ _ _ Ht H)
        as (Hc%profiles_constraints_Ok & _ & Hprof & _ & Ha).
      apply list_find_lookup in Ht as [Hi _].
      rewrite Hprof in Hp'. apply list_elem_of_lookup in Hp' as [j Hp'].
      destruct (decide (i = j)) as [<-|Hij].
      * rewrite list_lookup_insert_eq in Hp' by (by eapply lookup_lt_Some).
        injection Hp' as <-.
        destruct (decide (k = i)) as [->|Hki].
        -- assert (p = OLD) as -> by congruence.
           unfold is_distinct_from in Ha. rewrite bool_decide_eq_true_2 in Ha by done.
           eexists. split; [rewrite Ha; apply elem_of_app; right; apply list_elem_of_singleton; done|].
           simpl. by rewrite Hid.
        -- exfalso. apply Hc. rewrite <- Hid. apply list_elem_of_fmap. exists p.
           split; [done|]. apply list_elem_of_lookup.
           destruct (decide (k < i)%nat).
           ++ exists k. by rewrite list_lookup_delete_lt.
           ++ exists (pred k). rewrite list_lookup_delete_ge by lia.
              by replace (S (pred k)) with k by lia.
      * rewrite list_lookup_insert_ne in Hp' by done.
        assert (k = j) by (by eapply (key_lookup_inj Profiles.id)). naive_solver.
  - apply list_elem_of_lookup in Hp' as [j Hp'].
    assert (k = j) by (by eapply (key_lookup_inj Profiles.id)). naive_solver.
Qed.

Lemma audited_run (d : database) (trace : list (pg_env * statement)) (uid : uuid)
    (old new : option numeric) :
  audited d uid old new → audited (run d trace) uid old new.
Proof.
  intros (a & Ha & Hrest). exists a. split; [by apply run_audit_logs | done].
Qed.

(** C6. The audit row is written by the statement that changes the
    balance: when the trigger's insert fails, the update fails with it and
    the database is as before.  Hence along every run from the empty
    database, whenever a step changes the balance of a profile, every
    later state holds the audit row of that change. *)
Theorem log_profile_balance_changes_atomic :
  (∀ env s target set d i OLD e,
     profiles_target s target d = Some (i, OLD) →
     log_balance_change env "UPDATE" "profiles" OLD
       (update_updated_at_column env (set OLD))
       (set_profiles (<[i:=update_updated_at_column env (set OLD)]> (profiles d)) d) = Err e →
     ∃ e', commit d (update_profile env s target set d) = (d, Some e'))
  ∧ (∀ before es after p p',
       p ∈ profiles (run empty_database before) →
       p' ∈ profiles (step (run empty_database before) es) →
       Profiles.id p = Profiles.id p' →
       Profiles.balance p ≠ Profiles.balance p' →
       audited (run (step (run empty_database before) es) after)
               (Profiles.id p) (Profiles.balance p) (Profiles.balance p')).
Proof.
  split.
  - intros env s target set d i OLD e Ht He.
    unfold update_profile. rewrite Ht. cbv zeta.
    destruct (check _ _) as [[]|e1]; simpl; [|eauto].
    destruct (profiles_constraints _ _ _) as [[]|e2]; simpl; [|eauto].
    rewrite He. eauto.
  - intros before es after p p' Hp Hp' Hid Hbal.
    apply audited_run, step_balance_change; try done.
    apply run_profiles_key. unfold profiles_key. simpl. apply NoDup_nil_2.
Qed.

(** ** Reading transactions *)

Global Instance created_at_desc_total : Total created_at_desc.
Proof.
  intros r1 r2. unfold created_at_desc.
  destruct (Transactions.created_at r1), (Transactions.created_at r2); try tauto. lia.
Qed.

Global Instance created_at_desc_trans : Transitive created_at_desc.
Proof.
  intros r1 r2 r3. unfold created_at_desc.
  destruct (Transactions.created_at r1), (Transactions.created_at r2),
    (Transactions.created_at r3); try tauto. lia.
Qed.

Lemma StronglySorted_lookup_lt {A} (R : relation A) (l : list A) (i j : nat) (x y : A) :
  StronglySorted R l → (i < j)%nat → l !! i = Some x → l !! j = Some y → R x y.
Proof.
  intros Hs Hij Hi Hj. rewrite <- (take_drop j l) in Hs.
  apply (StronglySorted_app_1_elem_of R _ _ x y Hs).
  - apply elem_of_take. eauto.
  - apply list_elem_of_lookup. exists 0%nat. by rewrite lookup_drop, Nat.add_0_r.
Qed.

Lemma filter_none {A} (P : A → Prop) `{∀ x, Decision (P x)} (l : list A) :
  (∀ x, x ∈ l → ¬ P x) → filter P l = [].
Proof.
  intros Hl. destruct (filter P l) as [|x l'] eqn:Hf; [done|].
  assert (Hx : x ∈ filter P l) by (rewrite Hf; left).
  apply list_elem_of_filter in Hx as [HP Hx]. by destruct (Hl x Hx).
Qed.

Lemma sql_true_eq {A} `{EqDecision A} (a b : option A) :
  sql_true (sql_eq a b) = true ↔ ∃ v, a = Some v ∧ b = Some v.
Proof.
  destruct a as [x|], b as [y|]; simpl; try (split; [done | by intros (? & ? & ?)]).
  case_bool_decide as Hxy; simpl.
  - subst. split; [eauto | done].
  - split; [done | intros (v & [= ->] & [= ->]); done].
Qed.

(** A row the SELECT policy shows to an authenticated or anonymous
    session is owned by the session's identity. *)
Lemma from_transactions_select_owned (s : role) (d : database) (r : Transactions.row) :
  r ∈ from_transactions_select s d →
  r ∈ transactions d
  ∧ (s ≠ service_role → ∃ sub, s = authenticated sub ∧ Transactions.user_id r = Some sub).
Proof.
  unfold from_transactions_select. intros [Hp Hr]%list_elem_of_filter.
  split; [done|]. intros Hs. unfold transactions_policy in Hp.
  destruct s as [|sub|]; cbn [bypassrls auth_uid orb] in Hp; [done| |done].
  apply Is_true_true, sql_true_eq in Hp as (v & [= <-] & Hv). eauto.
Qed.

Lemma transactions_query_rows (rq : request) (u : User) (d : database)
    (r : Transactions.row) :
  r ∈ limit 10 (order_created_at_desc
         (eq_user_id (User_id u) (from_transactions_select (session rq) d))) →
  Transactions.user_id r = Some (User_id u) ∧ r ∈ from_transactions_select (session rq) d.
Proof.
  unfold limit, order_created_at_desc, eq_user_id. intros Hr.
  apply subseteq_take in Hr. rewrite merge_sort_Permutation in Hr.
  apply list_elem_of_filter in Hr as [Hu Hr]. split; [|done].
  apply Is_true_true, sql_true_eq in Hu as (v & -> & [= ->]). done.
Qed.

(** The rows the query sorts: those of the table that the identity
    queried for owns and that the SELECT policy shows to the session. *)
Lemma eq_user_id_from_transactions_select (s : role) (v : uuid) (d : database) :
  eq_user_id v (from_transactions_select s d)
  = filter (λ r, Transactions.user_id r = Some v ∧ transactions_policy s r)
           (transactions d).
Proof.
  unfold eq_user_id, from_transactions_select. rewrite list_filter_filter.
  apply list_filter_iff. intros r.
  rewrite Is_true_true, sql_true_eq. split.
  - intros [(x & -> & [= ->]) Hp]. done.
  - intros [-> Hp]. split; [by eexists | done].
Qed.

Section DashboardProperties.

Variable refreshProfile : request → database → AuthContext → AuthContext.

Lemma fetchTransactions_db (rq : request) (w : world) :
  db (fetchTransactions rq w) = db w ∧ auth (fetchTransactions rq w) = auth w.
Proof. unfold fetchTransactions. by case_match. Qed.

(** C5. Without a transport failure, [fetchTransactions] stores at most
    10 rows, sorted by [created_at] descending, all of them rows of the
    table owned by the identity queried for, which is the identity of the
    session; nothing is logged as an error.  When that identity owns no
    transaction the list stored is empty.  The rows stored are the newest
    of the identity: together with the rows left out they are the rows of
    the table that the identity owns and the session may see, no row left
    out sorts before a row stored, there are 10 of them or as many as the
    identity has, and every row of the identity is stored when it has at
    most 10. *)
Theorem fetchTransactions_recent (rq : request) (w : world) (u : User) :
  user (auth w) = Some u → fault rq = None →
  let w' := fetchTransactions rq w in
  let rows := State.transactions (view w') in
  transactions_query rq (user (auth w)) (db w) = {| data := Some rows; error := None |}
  ∧ (List.length rows ≤ 10)%nat
  ∧ StronglySorted created_at_desc rows
  ∧ (∀ i j r1 r2 t1 t2,
       (i < j)%nat → rows !! i = Some r1 → rows !! j = Some r2 →
       Transactions.created_at r1 = Some t1 → Transactions.created_at r2 = Some t2 →
       t2 ≤ t1)
  ∧ (∀ r, r ∈ rows →
       r ∈ transactions (db w)
       ∧ Transactions.user_id r = Some (User_id u)
       ∧ (session rq ≠ service_role → session rq = authenticated (User_id u)))
  ∧ State.console (view w') = State.console (view w)
  ∧ State.toasts (view w') = State.toasts (view w)
  ∧ db w' = db w
  ∧ ((∀ r, r ∈ transactions (db w) → Transactions.user_id r ≠ Some (User_id u)) →
       rows = [])
  ∧ (∃ rest,
       rows ++ rest
         ≡ₚ filter (λ r, Transactions.user_id r = Some (User_id u)
                         ∧ transactions_policy (session rq) r) (transactions (db w))
       ∧ (∀ x y, x ∈ rows → y ∈ rest → created_at_desc x y)
       ∧ ((List.length
             (filter (λ r, Transactions.user_id r = Some (User_id u)
                           ∧ transactions_policy (session rq) r) (transactions (db w)))
           ≤ 10)%nat → rest = []))
  ∧ List.length rows
    = Nat.min 10
        (List.length
           (filter (λ r, Transactions.user_id r = Some (User_id u)
                         ∧ transactions_policy (session rq) r) (transactions (db w))))
  ∧ (session rq = authenticated (User_id u) →
     (List.length
        (filter (λ r, Transactions.user_id r = Some (User_id u)) (transactions (db w)))
      ≤ 10)%nat →
     ∀ r, r ∈ transactions (db w) → Transactions.user_id r = Some (User_id u) → r ∈ rows).
Proof.
  intros Hu Hf w' rows. subst w' rows.
  unfold fetchTransactions, transactions_query. simpl. rewrite Hu, Hf. simpl.
  set (rows := limit 10 (order_created_at_desc
                 (eq_user_id (User_id u) (from_transactions_select (session rq) (db w))))).
  assert (Hs : StronglySorted created_at_desc rows).
  { unfold rows, limit. eapply StronglySorted_app_1_l. rewrite take_drop.
    apply StronglySorted_merge_sort; apply _. }
  split_and!; try done.
  - unfold rows, limit. rewrite length_take. lia.
  - intros i j r1 r2 t1 t2 Hij Hi Hj H1 H2.
    pose proof (StronglySorted_lookup_lt _ _ _ _ _ _ Hs Hij Hi Hj) as HR.
    unfold created_at_desc in HR. by rewrite H1, H2 in HR.
  - intros r [Hr1 Hr2]%transactions_query_rows.
    apply from_transactions_select_owned in Hr2 as [Hr2 Hr3].
    split_and!; [done | done |].
    intros Hs'. destruct (Hr3 Hs') as (sub & -> & Hsub). congruence.
  - intros Hnone. unfold rows, eq_user_id.
    rewrite filter_none; [done|].
    intros r [Hr _]%from_transactions_select_owned Hp.
    apply Is_true_true, sql_true_eq in Hp as (v & Hv & [= <-]). by apply (Hnone r).
  - exists (drop 10 (order_created_at_desc
              (eq_user_id (User_id u) (from_transactions_select (session rq) (db w))))).
    rewrite <- eq_user_id_from_transactions_select. unfold rows, limit. split_and!.
    + rewrite take_drop. apply merge_sort_Permutation.
    + intros x y Hx Hy.
      eapply (StronglySorted_app_1_elem_of created_at_desc); [|exact Hx|exact Hy].
      rewrite take_drop. apply StronglySorted_merge_sort; apply _.
    + intros Hlen. apply drop_ge. unfold order_created_at_desc.
      by rewrite merge_sort_Permutation.
  - rewrite <- eq_user_id_from_transactions_select. unfold rows, limit.
    rewrite length_take. unfold order_created_at_desc.
    by rewrite merge_sort_Permutation.
  - intros Hsession Hlen r Hr Howner.
    assert (Hall : filter (λ r, Transactions.user_id r = Some (User_id u)
                                ∧ transactions_policy (session rq) r) (transactions (db w))
                   = filter (λ r, Transactions.user_id r = Some (User_id u))
                            (transactions (db w))).
    { apply list_filter_iff. intros x. rewrite Hsession. split; [by intros [? _]|].
      intros Hx. split; [done|]. apply Is_true_true.
      unfold transactions_policy. cbn [bypassrls auth_uid orb].
      apply sql_true_eq. by eexists. }
    unfold rows, limit. rewrite take_ge.
    + unfold order_created_at_desc.
      rewrite merge_sort_Permutation, eq_user_id_from_transactions_select, Hall.
      by apply list_elem_of_filter.
    + unfold order_created_at_desc.
      by rewrite merge_sort_Permutation, eq_user_id_from_transactions_select, Hall.
Qed.

(** C7. A read of transactions issued by [U] returns no row owned by a
    different identity [V]: every row the SELECT policy lets through is
    owned by [U], whatever the further filters of the query, and the
    query of [fetchTransactions] for the rows of [V] answers with the
    empty list and no error. *)
Theorem transactions_select_policy_isolates (U V : uuid) (d : database) :
  U ≠ V →
  (∀ r, r ∈ from_transactions_select (authenticated U) d →
        Transactions.user_id r = Some U)
  ∧ (∀ (P : Transactions.row → Prop) (dec : ∀ r, Decision (P r)) (n : nat) r,
       r ∈ limit n (order_created_at_desc (filter P (from_transactions_select (authenticated U) d))) →
       Transactions.user_id r ≠ Some V)
  ∧ (∀ env, transactions_query {| session := authenticated U; fault := None; server := env |}
              (Some {| User_id := V |}) d
            = {| data := Some []; error := None |}).
Proof.
  intros HUV.
  assert (Hown : ∀ r, r ∈ from_transactions_select (authenticated U) d →
                      Transactions.user_id r = Some U).
  { intros r [_ Hr]%from_transactions_select_owned.
    destruct Hr as (sub & [= <-] & Hr); done. }
  split_and!; [done | |].
  - intros P dec n r Hr. unfold limit, order_created_at_desc in Hr.
    apply subseteq_take in Hr. rewrite merge_sort_Permutation in Hr.
    apply list_elem_of_filter in Hr as [_ Hr]. rewrite (Hown r Hr). congruence.
  - intros env. unfold transactions_query. simpl. do 2 f_equal.
    unfold eq_user_id. rewrite filter_none; [done|].
    intros r Hr Hp. apply Is_true_true, sql_true_eq in Hp as (v & Hv & [= <-]).
    rewrite (Hown r Hr) in Hv. congruence.
Qed.

(** ** The verification payment *)

Lemma transactions_insert_frame (rq : request) (NEW : Transactions.row) (d : database) :
  auth_users (transactions_insert rq NEW d).1 = auth_users d
  ∧ profiles (transactions_insert rq NEW d).1 = profiles d
  ∧ audit_logs (transactions_insert rq NEW d).1 = audit_logs d.
Proof.
  unfold transactions_insert. destruct (fault rq); [done|].
  destruct (insert_transaction (session rq) NEW d) as [d'|e] eqn:H; simpl; [|done].
  by apply insert_transaction_Ok in H as [-> _].
Qed.

Lemma handleVerificationPayment_db (rq_insert rq_fetch rq_profile : request) (w : world)
    (u : User) (p : Profiles.row) :
  user (auth w) = Some u → profile (auth w) = Some p →
  db (handleVerificationPayment refreshProfile rq_insert rq_fetch rq_profile w).1
  = (transactions_insert rq_insert (verification_payment (server rq_insert) u) (db w)).1.
Proof.
  intros Hu Hp. unfold handleVerificationPayment. rewrite Hu, Hp. simpl.
  destruct (transactions_insert _ _ _) as [d r]. simpl.
  destruct (error r); simpl; [done|].
  apply fetchTransactions_db.
Qed.

(** C4, as the code has it.  When the insert of the verification payment
    succeeds, exactly one row is added to the transactions: of type
    [verification_payment], amount 6000, recipient account 9163110673,
    name Abdullahi, bank Opay, status pending, owned by the user of the
    session, who is the caller.  The handler returns [undefined], not
    the identifier of the row.  When the insert is rejected, by the
    policy or otherwise, no row is added, the error is shown as a
    destructive notification and the handler again returns [undefined].
    The validator accepts the row. *)
Theorem handleVerificationPayment_inserts_payment (rq_insert rq_fetch rq_profile : request)
    (w : world) (u : User) (p : Profiles.row) :
  user (auth w) = Some u → profile (auth w) = Some p → fault rq_insert = None →
  let NEW := verification_payment (server rq_insert) u in
  let r := handleVerificationPayment refreshProfile rq_insert rq_fetch rq_profile w in
  validate_transaction_amount NEW = Ok NEW
  ∧ (∀ d', insert_transaction (session rq_insert) NEW (db w) = Ok d' →
       transactions (db r.1) = transactions (db w) ++ [NEW]
       ∧ Transactions.type NEW = Some "verification_payment"
       ∧ Transactions.amount NEW = Some (numeric_of_int 6000)
       ∧ Transactions.recipient_account NEW = Some "9163110673"
       ∧ Transactions.recipient_name NEW = Some "Abdullahi"
       ∧ Transactions.recipient_bank NEW = Some "Opay"
       ∧ Transactions.status NEW = Some "pending"
       ∧ Transactions.user_id NEW = Some (User_id u)
       ∧ (session rq_insert ≠ service_role → session rq_insert = authenticated (User_id u))
       ∧ r.2 = js_undefined)
  ∧ (∀ e, insert_transaction (session rq_insert) NEW (db w) = Err e →
       db r.1 = db w
       ∧ State.toasts (view r.1) =
           State.toasts (view w) ++
             [{| title := "Error";
                 description := error_message (PostgrestError e);
                 variant := "destructive" |}]
       ∧ r.2 = js_undefined)
  ∧ (transactions_policy (session rq_insert) NEW = false →
       insert_transaction (session rq_insert) NEW (db w) = Err (rls_violation "transactions")).
Proof.
  intros Hu Hp Hf NEW r.
  assert (Hv : validate_transaction_amount NEW = Ok NEW) by done.
  split_and!; [done | | |].
  - intros d' Hi. subst r.
    rewrite (handleVerificationPayment_db _ _ _ _ _ _ Hu Hp).
    unfold handleVerificationPayment, transactions_insert.
    rewrite Hu, Hp, Hf. fold NEW. simpl. rewrite Hi. simpl.
    apply insert_transaction_Ok in Hi as [-> Hpol].
    split_and!; try done.
    intros Hs. unfold transactions_policy in Hpol.
    destruct (session rq_insert) as [|sub|]; cbn [bypassrls auth_uid orb] in Hpol; try done.
    apply sql_true_eq in Hpol as (v & [= <-] & [= ->]). done.
  - intros e Hi. subst r.
    rewrite (handleVerificationPayment_db _ _ _ _ _ _ Hu Hp).
    unfold handleVerificationPayment, transactions_insert.
    rewrite Hu, Hp, Hf. fold NEW. simpl. rewrite Hi. done.
  - intros Hpol. unfold insert_transaction. rewrite Hv. simpl.
    by rewrite Hpol.
Qed.

(** C8. [handleVerificationPayment] leaves the profiles as they are: a
    read of a profile after the call returns what it returned before, in
    particular the same [has_paid_verification] and the same balance.
    No operation of the client changes a row of the profiles. *)
Theorem handleVerificationPayment_keeps_profiles (rq_insert rq_fetch rq_profile : request)
    (w : world) :
  let w' := (handleVerificationPayment refreshProfile rq_insert rq_fetch rq_profile w).1 in
  profiles (db w') = profiles (db w)
  ∧ (∀ s identity, getProfile s identity (db w') = getProfile s identity (db w))
  ∧ (∀ s identity p,
       getProfile s identity (db w) = Some p →
       Profiles.has_paid_verification p = Some false →
       ∃ p', getProfile s identity (db w') = Some p'
           ∧ Profiles.has_paid_verification p' = Some false
           ∧ Profiles.balance p' = Profiles.balance p)
  ∧ (∀ op w0, profiles (db (client_step refreshProfile op w0)) = profiles (db w0)).
Proof.
  assert (Hk : ∀ rq1 rq2 rq3 w0,
    profiles (db (handleVerificationPayment refreshProfile rq1 rq2 rq3 w0).1)
    = profiles (db w0)).
  { intros rq1 rq2 rq3 w0.
    destruct (user (auth w0)) as [u|] eqn:Hu, (profile (auth w0)) as [p|] eqn:Hp.
    - rewrite (handleVerificationPayment_db _ _ _ _ _ _ Hu Hp).
      apply transactions_insert_frame.
    - unfold handleVerificationPayment. by rewrite Hu, Hp.
    - unfold handleVerificationPayment. by rewrite Hu.
    - unfold handleVerificationPayment. by rewrite Hu. }
  intros w'. subst w'.
  assert (Hg : ∀ s identity,
    getProfile s identity
      (db (handleVerificationPayment refreshProfile rq_insert rq_fetch rq_profile w).1)
    = getProfile s identity (db w)).
  { intros s identity. unfold getProfile, profiles_target. by rewrite Hk. }
  split_and!; [done | done | |].
  - intros s identity p Hp Hpaid. exists p. by rewrite Hg.
  - intros [rq|rq1 rq2 rq3|rq] w0; simpl; [|done|done].
    by destruct (fetchTransactions_db rq w0) as [-> _].
Qed.

(** C9, as the code has it.  When the query of [fetchTransactions] fails,
    the error is caught and written to the console with
    [console.error]; no notification is shown, the list of transactions
    on screen stays as it was, and the one request sent is not repeated.
    A request that does not reach the server fails in this way. *)
Theorem fetchTransactions_error_logged (rq : request) (w : world) :
  (∀ e, error (transactions_query rq (user (auth w)) (db w)) = Some e →
     let w' := fetchTransactions rq w in
     State.console (view w') = State.console (view w) ++ [("Error fetching transactions:", e)]
     ∧ State.toasts (view w') = State.toasts (view w)
     ∧ State.transactions (view w') = State.transactions (view w)
     ∧ sent w' = sent w ++ [select_transactions]
     ∧ db w' = db w
     ∧ auth w' = auth w)
  ∧ (∀ m, fault rq = Some m →
       error (transactions_query rq (user (auth w)) (db w)) = Some (FetchError m)).
Proof.
  split.
  - intros e He w'. subst w'. unfold fetchTransactions. simpl. by rewrite He.
  - intros m Hm. unfold transactions_query. by rewrite Hm.
Qed.

(** C10. Without a user or without a profile in the session,
    [handleVerificationPayment] returns at once: no request is sent, no
    notification is shown, and the database and the component are as
    before. *)
Theorem handleVerificationPayment_guard (rq_insert rq_fetch rq_profile : request) (w : world) :
  user (auth w) = None ∨ profile (auth w) = None →
  handleVerificationPayment refreshProfile rq_insert rq_fetch rq_profile w = (w, js_undefined).
Proof.
  intros [Hu|Hp]; unfold handleVerificationPayment.
  - by rewrite Hu.
  - rewrite Hp. by destruct (user (auth w)).
Qed.

End DashboardProperties.

(** * The definitions at work on the sample database *)

Example fetchTransactions_sample :
  State.transactions (view (fetchTransactions rq0 world0))
  = [deposit "t3" "U" "r3" (numeric_of_int 900) 1600003000;
     deposit "t1" "U" "r1" (numeric_of_int 500) 1600001000].
Proof. vm_compute. reflexivity. Qed.

Example handleVerificationPayment_sample :
  transactions (db (handleVerificationPayment refreshProfile0 rq0 rq0 rq0 world0).1)
  = transactions db0 ++ [verification_payment pg0 {| User_id := "U" |}].
Proof. vm_compute. reflexivity. Qed.

Example update_profile_sample :
  audit_logs db_withdrawn
  = [balance_audit_row pg0 "UPDATE" "profiles" profile_U
       (update_updated_at_column pg0 (set_balance (numeric_of_int 94000) profile_U))].
Proof. vm_compute. reflexivity. Qed.

(** A NULL amount passes the validator (its comparisons are unknown) and
    is refused by the NOT NULL constraint; a session without identity is
    refused by the policy; an update of a row of another identity touches
    nothing. *)
Example insert_transaction_null_amount :
  insert_transaction (authenticated "U")
    {| Transactions.id := "t9"; Transactions.user_id := Some "U";
       Transactions.type := Some "deposit"; Transactions.amount := None;
       Transactions.recipient_account := None; Transactions.recipient_name := None;
       Transactions.recipient_bank := None; Transactions.status := Some "pending";
       Transactions.reference := Some "r9"; Transactions.description := None;
       Transactions.created_at := Some 1600004000 |} db0
  = Err (not_null_violation "amount").
Proof. vm_compute. reflexivity. Qed.

Example insert_transaction_anon :
  insert_transaction anon (deposit "t9" "U" "r9" (numeric_of_int 500) 1600004000) db0
  = Err (rls_violation "transactions").
Proof. vm_compute. reflexivity. Qed.

Example update_transaction_of_other_identity :
  update_transaction (authenticated "U") "t2" (set_amount 0) db0 = Ok db0.
Proof. vm_compute. reflexivity. Qed.

Example update_profile_same_balance :
  (λ r, match r with Ok d => audit_logs d | Err _ => [] end)
    (update_profile pg0 (authenticated "U") "U" (set_balance (numeric_of_int 100000)) db0)
  = [].
Proof. vm_compute. reflexivity. Qed.

Lemma validate_transaction_amount_bounds_witness :
  Transactions.amount (set_amount 0 (deposit "t1" "U" "r1" (numeric_of_int 500) 1600001000))
    = Some 0
  ∧ (∃ msg, commit db0 (insert_transaction (authenticated "U")
              (set_amount 0 (deposit "t1" "U" "r1" (numeric_of_int 500) 1600001000)) db0)
            = (db0, Some (raise_exception msg)))
  ∧ (∃ msg, commit db0 (update_transaction (authenticated "U") "t1" (set_amount 0) db0)
            = (db0, Some (raise_exception msg)))
  ∧ validate_transaction_amount (verification_payment pg0 {| User_id := "U" |})
    = Ok (verification_payment pg0 {| User_id := "U" |}).
Proof.
  pose proof (validate_transaction_amount_bounds (authenticated "U") db0
    (set_amount 0 (deposit "t1" "U" "r1" (numeric_of_int 500) 1600001000)) 0 eq_refl)
    as (_ & Hins & Hupd & _).
  pose proof (validate_transaction_amount_bounds (authenticated "U") db0
    (verification_payment pg0 {| User_id := "U" |}) (numeric_of_int 6000) eq_refl)
    as (_ & _ & _ & Hok).
  split_and!.
  - reflexivity.
  - apply Hins. left. vm_compute. discriminate.
  - apply (Hupd "t1" (set_amount 0) 0%nat
             (deposit "t1" "U" "r1" (numeric_of_int 500) 1600001000)).
    + vm_compute. reflexivity.
    + reflexivity.
    + left. vm_compute. discriminate.
  - apply Hok. vm_compute. split; [reflexivity | discriminate].
Defined.

Lemma log_balance_change_iff_balance_differs_witness :
  profiles_target (authenticated "U") "U" db0 = Some (0%nat, profile_U)
  ∧ update_profile pg0 (authenticated "U") "U" (set_balance (numeric_of_int 94000)) db0
    = Ok db_withdrawn
  ∧ List.length (audit_logs db_withdrawn) = S (List.length (audit_logs db0))
  ∧ ∃ a, audit_logs db_withdrawn = audit_logs db0 ++ [a]
       ∧ AuditLogs.old_values a = Some (JObject [("balance", JNumber (numeric_of_int 100000))])
       ∧ AuditLogs.new_values a = Some (JObject [("balance", JNumber (numeric_of_int 94000))]).
Proof.
  assert (Ht : profiles_target (authenticated "U") "U" db0 = Some (0%nat, profile_U))
    by (vm_compute; reflexivity).
  assert (Hu : update_profile pg0 (authenticated "U") "U"
                 (set_balance (numeric_of_int 94000)) db0 = Ok db_withdrawn)
    by (vm_compute; reflexivity).
  assert (Hne : Profiles.balance profile_U
                ≠ Profiles.balance (update_updated_at_column pg0
                    (set_balance (numeric_of_int 94000) profile_U)))
    by (vm_compute; discriminate).
  pose proof (log_balance_change_iff_balance_differs pg0 (authenticated "U") "U"
    (set_balance (numeric_of_int 94000)) db0 db_withdrawn 0%nat profile_U Ht Hu)
    as (_ & _ & Hone & _ & Hlen).
  split_and!; [exact Ht | exact Hu | by apply Hlen |].
  destruct (Hone Hne) as (a & Ha & _ & _ & _ & Hold & Hnew). by exists a.
Defined.

Lemma handle_new_user_provisions_profile_witness :
  create_identity pg0 user_W db0 = Ok db_W
  ∧ (∃ p, filter (λ r, Profiles.id r = "W") (profiles db_W) = [p]
        ∧ Profiles.phone_number p = Some "+2348000000003"
        ∧ Profiles.full_name p = Some "Chidi"
        ∧ Profiles.balance p = Some (numeric_of_int 100000)
        ∧ Profiles.is_verified p = Some false
        ∧ Profiles.has_paid_verification p = Some false)
  ∧ handle_new_user pg0 user_X (set_auth_users (auth_users db0 ++ [user_X]) db0)
    = Err (unique_violation "profiles_phone_number_key")
  ∧ ∃ e, commit db0 (create_identity pg0 user_X db0) = (db0, Some e).
Proof.
  assert (Hc : create_identity pg0 user_W db0 = Ok db_W) by (vm_compute; reflexivity).
  assert (Hx : handle_new_user pg0 user_X (set_auth_users (auth_users db0 ++ [user_X]) db0)
               = Err (unique_violation "profiles_phone_number_key"))
    by (vm_compute; reflexivity).
  split_and!; [exact Hc | | exact Hx |].
  - destruct (handle_new_user_provisions_profile pg0 user_W db0) as [Hok _].
    destruct (Hok db_W Hc) as (p & Hp & _ & Hphone & Hname & _ & Hbal & Hv & Hpaid).
    exists p. split_and!; try done.
    apply (Hname {[ "full_name" := Some "Chidi" ]} "Chidi"); [reflexivity|].
    vm_compute. reflexivity.
  - destruct (handle_new_user_provisions_profile pg0 user_X db0) as [_ Hfail].
    exact (Hfail _ Hx).
Defined.

Lemma log_profile_balance_changes_atomic_witness :
  (∃ e, commit db_clash
          (update_profile pg0 (authenticated "U") "U" (set_balance (numeric_of_int 94000))
             db_clash)
        = (db_clash, Some e))
  ∧ audited
      (run empty_database
         [(pg0, CreateIdentity user_U);
          (pg0, UpdateProfile (authenticated "U") "U" (set_balance (numeric_of_int 94000)));
          (pg0, CreateIdentity user_V)])
      "U" (Some (numeric_of_int 100000)) (Some (numeric_of_int 94000)).
Proof.
  destruct log_profile_balance_changes_atomic as [Hroll Hinv].
  split.
  - apply (Hroll pg0 (authenticated "U") "U" (set_balance (numeric_of_int 94000))
             db_clash 0%nat profile_U (unique_violation "audit_logs_pkey")).
    + vm_compute. reflexivity.
    + vm_compute. reflexivity.
  - pose (p := {| Profiles.id := "U";
                  Profiles.phone_number := Some "+2348000000001";
                  Profiles.full_name := Some "Amina";
                  Profiles.balance := Some (numeric_of_int 100000);
                  Profiles.is_verified := Some false;
                  Profiles.has_paid_verification := Some false;
                  Profiles.created_at := Some 1700000000;
                  Profiles.updated_at := Some 1700000000 |}).
    apply (Hinv [(pg0, CreateIdentity user_U)]
             (pg0, UpdateProfile (authenticated "U") "U" (set_balance (numeric_of_int 94000)))
             [(pg0, CreateIdentity user_V)]
             p (set_balance (numeric_of_int 94000) p)).
    + vm_compute. left.
    + vm_compute. left.
    + reflexivity.
    + vm_compute. discriminate.
Defined.

Lemma fetchTransactions_recent_witness :
  user (auth world0) = Some {| User_id := "U" |}
  ∧ fault rq0 = None
  ∧ (List.length (State.transactions (view (fetchTransactions rq0 world0))) ≤ 10)%nat
  ∧ StronglySorted created_at_desc (State.transactions (view (fetchTransactions rq0 world0)))
  ∧ (∀ r, r ∈ State.transactions (view (fetchTransactions rq0 world0)) →
          Transactions.user_id r = Some "U")
  ∧ List.length (State.transactions (view (fetchTransactions rq0 world0)))
    = Nat.min 10
        (List.length
           (filter (λ r, Transactions.user_id r = Some "U"
                         ∧ transactions_policy (session rq0) r) (transactions (db world0))))
  ∧ deposit "t1" "U" "r1" (numeric_of_int 500) 1600001000
      ∈ State.transactions (view (fetchTransactions rq0 world0)).
Proof.
  pose proof (fetchTransactions_recent rq0 world0 {| User_id := "U" |} eq_refl eq_refl)
    as (_ & Hlen & Hsorted & _ & Hown & _ & _ & _ & _ & _ & Hcount & Hall).
  split_and!; [reflexivity | reflexivity | exact Hlen | exact Hsorted | | exact Hcount |].
  - intros r Hr. by destruct (Hown r Hr) as (_ & ? & _).
  - apply Hall; [reflexivity | | left | reflexivity].
    vm_compute. lia.
Defined.

Lemma transactions_select_policy_isolates_witness :
  "U" ≠ "V"
  ∧ transactions_query rq0 (Some {| User_id := "V" |}) db0
    = {| data := Some []; error := None |}.
Proof.
  assert (HUV : "U" ≠ "V") by discriminate.
  split; [exact HUV|].
  destruct (transactions_select_policy_isolates "U" "V" db0 HUV) as (_ & _ & Hq).
  exact (Hq pg0).
Defined.

Lemma handleVerificationPayment_inserts_payment_witness :
  user (auth world0) = Some {| User_id := "U" |}
  ∧ profile (auth world0) = Some profile_U
  ∧ fault rq0 = None
  ∧ insert_transaction (session rq0) (verification_payment (server rq0) {| User_id := "U" |})
      (db world0) = Ok db_paid
  ∧ transactions (db (handleVerificationPayment refreshProfile0 rq0 rq0 rq0 world0).1)
    = transactions (db world0) ++ [verification_payment (server rq0) {| User_id := "U" |}]
  ∧ (handleVerificationPayment refreshProfile0 rq0 rq0 rq0 world0).2 = js_undefined.
Proof.
  assert (Hi : insert_transaction (session rq0)
                 (verification_payment (server rq0) {| User_id := "U" |}) (db world0)
               = Ok db_paid) by (vm_compute; reflexivity).
  pose proof (handleVerificationPayment_inserts_payment refreshProfile0 rq0 rq0 rq0 world0
    {| User_id := "U" |} profile_U eq_refl eq_refl eq_refl) as (_ & Hok & _ & _).
  destruct (Hok db_paid Hi) as (Hrows & _ & _ & _ & _ & _ & _ & _ & _ & Hret).
  split_and!; [reflexivity | reflexivity | reflexivity | exact Hi | exact Hrows | exact Hret].
Defined.

Lemma handleVerificationPayment_keeps_profiles_witness :
  getProfile (authenticated "U") "U" (db world0) = Some profile_U
  ∧ Profiles.has_paid_verification profile_U = Some false
  ∧ ∃ p', getProfile (authenticated "U") "U"
            (db (handleVerificationPayment refreshProfile0 rq0 rq0 rq0 world0).1) = Some p'
        ∧ Profiles.has_paid_verification p' = Some false
        ∧ Profiles.balance p' = Profiles.balance profile_U.
Proof.
  assert (Hg : getProfile (authenticated "U") "U" (db world0) = Some profile_U)
    by (vm_compute; reflexivity).
  split_and!; [exact Hg | reflexivity |].
  destruct (handleVerificationPayment_keeps_profiles refreshProfile0 rq0 rq0 rq0 world0)
    as (_ & _ & Hpaid & _).
  exact (Hpaid (authenticated "U") "U" profile_U Hg eq_refl).
Defined.

Lemma fetchTransactions_error_logged_witness :
  fault rq_offline = Some "Failed to fetch"
  ∧ error (transactions_query rq_offline (user (auth world0)) (db world0))
    = Some (FetchError "Failed to fetch")
  ∧ State.console (view (fetchTransactions rq_offline world0))
    = State.console (view world0)
        ++ [("Error fetching transactions:", FetchError "Failed to fetch")]
  ∧ State.toasts (view (fetchTransactions rq_offline world0)) = State.toasts (view world0)
  ∧ sent (fetchTransactions rq_offline world0) = sent world0 ++ [select_transactions].
Proof.
  destruct (fetchTransactions_error_logged rq_offline world0) as [Hlog Hfault].
  pose proof (Hfault "Failed to fetch" eq_refl) as He.
  destruct (Hlog _ He) as (Hc & Ht & _ & Hs & _).
  split_and!; [reflexivity | exact He | exact Hc | exact Ht | exact Hs].
Defined.

Lemma handleVerificationPayment_guard_witness :
  (user (auth world_signed_out) = None ∨ profile (auth world_signed_out) = None)
  ∧ handleVerificationPayment refreshProfile0 rq0 rq0 rq0 world_signed_out
    = (world_signed_out, js_undefined).
Proof.
  assert (H : user (auth world_signed_out) = None ∨ profile (auth world_signed_out) = None)
    by (left; reflexivity).
  split; [exact H|].
  exact (handleVerificationPayment_guard refreshProfile0 rq0 rq0 rq0 world_signed_out H).
Defined.

(** The handler adds the row with identifier [tx-1] and yet returns
    [undefined]: the identifier is not what it returns. *)
Lemma handleVerificationPayment_returns_no_identifier :
  transactions (db (handleVerificationPayment refreshProfile0 rq0 rq0 rq0 world0).1)
  = transactions (db world0) ++ [verification_payment pg0 {| User_id := "U" |}]
  ∧ Transactions.id (verification_payment pg0 {| User_id := "U" |}) = "tx-1"
  ∧ (handleVerificationPayment refreshProfile0 rq0 rq0 rq0 world0).2 ≠ js_string "tx-1".
Proof.
  split_and!.
  - vm_compute. reflexivity.
  - reflexivity.
  - vm_compute. discriminate.
Qed.

(** The request does not reach the server, and no notification is shown:
    the list of notifications is empty after the failed fetch. *)
Lemma fetchTransactions_failure_shows_no_notification :
  error (transactions_query rq_offline (user (auth world0)) (db world0))
  = Some (FetchError "Failed to fetch")
  ∧ ¬ ∃ t, t ∈ State.toasts (view (fetchTransactions rq_offline world0)).
Proof.
  split.
  - reflexivity.
  - intros [t Ht]. vm_compute in Ht. by apply elem_of_nil in Ht.
Qed.

(** * Further properties *)

(** ** Unique columns *)

Section unique.
Context {A B : Type} (f : A → option B).

Lemma omap_cons_option_list (x : A) (l : list A) :
  omap f (x :: l) = option_list (f x) ++ omap f l.
Proof. csimpl. by destruct (f x). Qed.

Lemma elem_of_omap_fmap (l : list A) (v : B) : v ∈ omap f l ↔ Some v ∈ f <$> l.
Proof.
  rewrite list_elem_of_omap, list_elem_of_fmap. split.
  - intros (x & Hx & Hv). by exists x.
  - intros (x & Hv & Hx). by exists x.
Qed.

Lemma NoDup_option_list (o : option B) : NoDup (option_list o).
Proof. destruct o; simpl; [apply NoDup_singleton | apply NoDup_nil_2]. Qed.

Lemma elem_of_option_list (o : option B) (v : B) : v ∈ option_list o ↔ o = Some v.
Proof.
  destruct o; simpl.
  - rewrite list_elem_of_singleton. naive_solver.
  - rewrite elem_of_nil. naive_solver.
Qed.

Lemma NoDup_omap_snoc (l : list A) (x : A) :
  NoDup (omap f l) → (∀ v, f x = Some v → Some v ∉ f <$> l) →
  NoDup (omap f (l ++ [x])).
Proof.
  intros Hl Hx. rewrite omap_app, omap_cons_option_list. csimpl. rewrite app_nil_r.
  apply NoDup_app. split_and!; [done| |apply NoDup_option_list].
  intros v Hv Hv'%elem_of_option_list. apply (Hx v Hv'). by apply elem_of_omap_fmap.
Qed.

Lemma NoDup_omap_insert (l : list A) (i : nat) (x : A) :
  NoDup (omap f l) → (∀ v, f x = Some v → Some v ∉ f <$> delete i l) →
  NoDup (omap f (<[i:=x]> l)).
Proof.
  intros Hl Hx.
  destruct (decide (i < List.length l)%nat) as [Hi|Hi];
    [|by rewrite list_insert_ge by lia].
  destruct (lookup_lt_is_Some_2 l i Hi) as [y Hy].
  rewrite insert_take_drop by done. rewrite delete_take_drop in Hx.
  rewrite <- (take_drop_middle l i y Hy) in Hl.
  rewrite omap_app, omap_cons_option_list in Hl |- *.
  apply NoDup_app in Hl as (HA & HAB & HyB).
  apply NoDup_app in HyB as (_ & _ & HB).
  assert (Hfresh : ∀ v, v ∈ option_list (f x) →
            (v ∉ omap f (take i l)) ∧ (v ∉ omap f (drop (S i) l))).
  { intros v Hv%elem_of_option_list. specialize (Hx v Hv).
    rewrite fmap_app, not_elem_of_app in Hx. by rewrite !elem_of_omap_fmap. }
  apply NoDup_app. split_and!; [done| |].
  - intros v Hv [Hv'|Hv']%elem_of_app.
    + by destruct (Hfresh v Hv').
    + apply (HAB v Hv). apply elem_of_app. by right.
  - apply NoDup_app. split_and!; [apply NoDup_option_list| |done].
    intros v Hv. by destruct (Hfresh v Hv).
Qed.

Lemma NoDup_omap_filter (P : A → Prop) `{∀ x, Decision (P x)} (l : list A) :
  NoDup (omap f l) → NoDup (omap f (filter P l)).
Proof.
  intros Hl. eapply sublist_NoDup; [exact Hl|]. clear Hl.
  induction l as [|x l IH]; [done|].
  rewrite omap_cons_option_list.
  destruct (decide (P x)).
  - rewrite filter_cons_True, omap_cons_option_list by done.
    by apply sublist_app.
  - rewrite filter_cons_False by done. by apply sublist_inserts_l.
Qed.

Lemma NoDup_omap_lookup_delete (l : list A) (i : nat) (x : A) (v : B) :
  NoDup (omap f l) → l !! i = Some x → f x = Some v → Some v ∉ f <$> delete i l.
Proof.
  intros Hl Hi Hv.
  rewrite delete_take_drop. rewrite <- (take_drop_middle l i x Hi) in Hl.
  rewrite omap_app, omap_cons_option_list, Hv in Hl. simpl in Hl.
  apply NoDup_app in Hl as (_ & HAB & [HB _]%NoDup_cons).
  rewrite fmap_app, not_elem_of_app, <- !elem_of_omap_fmap. split; [|done].
  intros HA. apply (HAB v HA). left.
Qed.

End unique.

Section key.
Context {A B : Type} (f : A → B).

Lemma NoDup_fmap_lookup_delete (l : list A) (i : nat) (x : A) :
  NoDup (f <$> l) → l !! i = Some x → f x ∉ f <$> delete i l.
Proof.
  intros Hl Hi.
  rewrite delete_take_drop. rewrite <- (take_drop_middle l i x Hi) in Hl.
  rewrite fmap_app, fmap_cons in Hl.
  apply NoDup_app in Hl as (_ & HAB & [HB _]%NoDup_cons).
  rewrite fmap_app, not_elem_of_app. split; [|done].
  intros HA. apply (HAB _ HA). left.
Qed.

Lemma NoDup_fmap_snoc (l : list A) (x : A) :
  NoDup (f <$> l) → f x ∉ f <$> l → NoDup (f <$> l ++ [x]).
Proof.
  intros Hl Hx. rewrite fmap_app. apply NoDup_app. split_and!; [done| |apply NoDup_singleton].
  intros v Hv ->%list_elem_of_singleton. done.
Qed.

Lemma NoDup_fmap_filter (P : A → Prop) `{∀ x, Decision (P x)} (l : list A) :
  NoDup (f <$> l) → NoDup (f <$> filter P l).
Proof.
  intros Hl. eapply sublist_NoDup; [exact Hl|].
  by apply fmap_sublist, sublist_filter.
Qed.

(** The one row with a given key. *)
Lemma filter_key `{EqDecision B} (l : list A) (x : A) :
  NoDup (f <$> l) → x ∈ l → filter (λ r, f r = f x) l = [x].
Proof.
  intros Hl Hx. induction l as [|y l IH]; [by apply elem_of_nil in Hx|].
  rewrite fmap_cons in Hl. apply NoDup_cons in Hl as [Hy Hl].
  apply elem_of_cons in Hx as [->|Hx].
  - rewrite filter_cons_True by done. f_equal.
    destruct (filter (λ r, f r = f y) l) as [|z l'] eqn:Hf; [done|].
    assert (Hz : z ∈ filter (λ r, f r = f y) l) by (rewrite Hf; left).
    apply list_elem_of_filter in Hz as [Hfz Hz]. destruct Hy.
    rewrite <- Hfz. by apply list_elem_of_fmap_2.
  - rewrite filter_cons_False; [by apply IH|].
    intros Heq. apply Hy. rewrite Heq. by apply list_elem_of_fmap_2.
Qed.

(** The row a search by key finds. *)
Lemma list_find_key (Q : A → Prop) `{∀ x, Decision (Q x)} (l : list A)
    (i : nat) (x : A) :
  NoDup (f <$> l) → l !! i = Some x → Q x → (∀ y, Q y → f y = f x) →
  list_find Q l = Some (i, x).
Proof.
  intros Hl Hi HQ Hk. apply list_find_Some. split_and!; [done|done|].
  intros j y Hj Hlt Hy.
  assert (j = i); [|lia].
  apply (NoDup_lookup (f <$> l) j i (f x) Hl); rewrite list_lookup_fmap.
  - by rewrite Hj; simpl; rewrite (Hk y Hy).
  - by rewrite Hi.
Qed.

End key.

(** ** Constraints, read as propositions *)

Lemma check_bind {B} (b : bool) (e : pg_error) (k : result B) (r : B) :
  (check b e;; k) = Ok r ↔ b = true ∧ k = Ok r.
Proof. destruct b; simpl; split; try done; by intros []. Qed.

Lemma sql_check_in (c : option string) (vs : list string) :
  sql_check (sql_in c vs) = true ↔ ∀ x, c = Some x → x ∈ vs.
Proof.
  destruct c as [x|]; simpl; [|by split].
  case_bool_decide as Hx; simpl; split; try done.
  - by intros _ ? [= <-].
  - intros H. destruct Hx. by apply H.
Qed.

Lemma unique_check {B} `{EqDecision B} (c : option B) (others : list (option B)) :
  match c with
  | Some v => bool_decide (Some v ∉ others)
  | None => true
  end = true
  ↔ ∀ v, c = Some v → Some v ∉ others.
Proof.
  destruct c as [v|]; [|by split].
  rewrite bool_decide_eq_true. split; [by intros ? ? [= <-] | by intros H; apply H].
Qed.

Lemma references_check (d : database) (c : option uuid) :
  match c with
  | Some u => references_auth_users d u
  | None => true
  end = true
  ↔ ∀ u, c = Some u → u ∈ AuthUsers.id <$> auth_users d.
Proof.
  destruct c as [u|]; [|by split]. unfold references_auth_users.
  rewrite bool_decide_eq_true. split; [by intros ? ? [= <-] | by intros H; apply H].
Qed.

Lemma transactions_constraints_iff (d : database) (others : list Transactions.row)
    (NEW : Transactions.row) :
  transactions_constraints d others NEW = Ok tt
  ↔ is_Some (Transactions.type NEW)
    ∧ is_Some (Transactions.amount NEW)
    ∧ (∀ t, Transactions.type NEW = Some t →
            t ∈ ["deposit"; "withdrawal"; "transfer"; "verification_payment"])
    ∧ (∀ st, Transactions.status NEW = Some st → st ∈ ["pending"; "completed"; "failed"])
    ∧ (Transactions.id NEW ∉ Transactions.id <$> others)
    ∧ (∀ v, Transactions.reference NEW = Some v → Some v ∉ Transactions.reference <$> others)
    ∧ (∀ u, Transactions.user_id NEW = Some u → u ∈ AuthUsers.id <$> auth_users d).
Proof.
  unfold transactions_constraints.
  rewrite !check_bind, check_Ok, !bool_decide_eq_true, !sql_check_in.
  by rewrite unique_check, references_check.
Qed.

Lemma profiles_constraints_iff (d : database) (others : list Profiles.row)
    (NEW : Profiles.row) :
  profiles_constraints d others NEW = Ok tt
  ↔ (Profiles.id NEW ∉ Profiles.id <$> others)
    ∧ (∀ v, Profiles.phone_number NEW = Some v → Some v ∉ Profiles.phone_number <$> others)
    ∧ Profiles.id NEW ∈ AuthUsers.id <$> auth_users d.
Proof.
  unfold profiles_constraints, references_auth_users.
  rewrite !check_bind, check_Ok, !bool_decide_eq_true.
  by rewrite unique_check.
Qed.

Lemma insert_audit_log_row_iff (NEW : AuditLogs.row) (d d' : database) :
  insert_audit_log_row NEW d = Ok d'
  ↔ is_Some (AuditLogs.action NEW)
    ∧ is_Some (AuditLogs.table_name NEW)
    ∧ (AuditLogs.id NEW ∉ AuditLogs.id <$> audit_logs d)
    ∧ (∀ u, AuditLogs.user_id NEW = Some u → u ∈ AuthUsers.id <$> auth_users d)
    ∧ d' = set_audit_logs (audit_logs d ++ [NEW]) d.
Proof.
  unfold insert_audit_log_row.
  rewrite !check_bind, !bool_decide_eq_true, references_check.
  split; [intros (?&?&?&?&[= <-]) | intros (?&?&?&?&->)]; done.
Qed.

Lemma audit_logs_constraints_iff (d : database) (others : list AuditLogs.row)
    (NEW : AuditLogs.row) :
  audit_logs_constraints d others NEW = Ok tt
  ↔ is_Some (AuditLogs.action NEW)
    ∧ is_Some (AuditLogs.table_name NEW)
    ∧ (AuditLogs.id NEW ∉ AuditLogs.id <$> others)
    ∧ (∀ u, AuditLogs.user_id NEW = Some u → u ∈ AuthUsers.id <$> auth_users d).
Proof.
  unfold audit_logs_constraints.
  by rewrite !check_bind, check_Ok, !bool_decide_eq_true, references_check.
Qed.

Lemma result_unit_Ok (m : result unit) (u : unit) : m = Ok u ↔ m = Ok tt.
Proof. by destruct u. Qed.

(** A row the validator lets through has its amount, if any, in range. *)
Lemma validate_transaction_amount_in_range (NEW r : Transactions.row) (a : numeric) :
  validate_transaction_amount NEW = Ok r → Transactions.amount NEW = Some a →
  0 < a ≤ numeric_of_int 100000000.
Proof.
  intros Hv Ha.
  destruct (decide (a ≤ numeric_of_int 0 ∨ numeric_of_int 100000000 < a)) as [Hout|Hin].
  - apply (validate_transaction_amount_rejects NEW a Ha) in Hout as [msg Hmsg]. congruence.
  - unfold numeric_of_int in *. lia.
Qed.

Lemma validate_transaction_amount_accepts (NEW : Transactions.row) (a : numeric) :
  Transactions.amount NEW = Some a → 0 < a ≤ numeric_of_int 100000000 →
  validate_transaction_amount NEW = Ok NEW.
Proof.
  intros Ha Hin.
  destruct (validate_transaction_amount NEW) as [r|e] eqn:Hv.
  - by apply validate_transaction_amount_Ok in Hv as ->.
  - destruct (validate_transaction_amount_Err _ _ Hv) as [msg ->].
    assert (a ≤ numeric_of_int 0 ∨ numeric_of_int 100000000 < a) as Hout
      by (apply (validate_transaction_amount_rejects NEW a Ha); eauto).
    unfold numeric_of_int in *. lia.
Qed.

(** ** When a write succeeds *)

Lemma insert_transaction_iff (s : role) (NEW : Transactions.row) (d d' : database) :
  insert_transaction s NEW d = Ok d'
  ↔ validate_transaction_amount NEW = Ok NEW
    ∧ transactions_policy s NEW = true
    ∧ transactions_constraints d (transactions d) NEW = Ok tt
    ∧ d' = set_transactions (transactions d ++ [NEW]) d.
Proof.
  unfold insert_transaction. split.
  - intros H. apply bind_Ok in H as (r & Hv & H).
    pose proof (validate_transaction_amount_Ok _ _ Hv) as ->.
    apply check_bind in H as [Hp H].
    apply bind_Ok in H as ([] & Hc & [= <-]). done.
  - intros (Hv & Hp & Hc & ->). rewrite Hv. simpl. rewrite Hp. simpl. by rewrite Hc.
Qed.

Lemma update_transaction_iff (s : role) (target : uuid)
    (set : Transactions.row → Transactions.row) (d d' : database) (i : nat)
    (OLD : Transactions.row) :
  transactions_target s target d = Some (i, OLD) →
  update_transaction s target set d = Ok d'
  ↔ validate_transaction_amount (set OLD) = Ok (set OLD)
    ∧ transactions_policy s (set OLD) = true
    ∧ transactions_constraints d (delete i (transactions d)) (set OLD) = Ok tt
    ∧ d' = set_transactions (<[i:=set OLD]> (transactions d)) d.
Proof.
  intros Ht. unfold update_transaction. rewrite Ht. split.
  - intros H. apply bind_Ok in H as (r & Hv & H).
    pose proof (validate_transaction_amount_Ok _ _ Hv) as ->.
    apply check_bind in H as [Hp H].
    apply bind_Ok in H as ([] & Hc & [= <-]). done.
  - intros (Hv & Hp & Hc & ->). rewrite Hv. simpl. rewrite Hp. simpl. by rewrite Hc.
Qed.

Lemma update_profile_iff (env : pg_env) (s : role) (target : uuid)
    (set : Profiles.row → Profiles.row) (d d' : database) (i : nat) (OLD : Profiles.row) :
  profiles_target s target d = Some (i, OLD) →
  update_profile env s target set d = Ok d'
  ↔ profiles_policy s (update_updated_at_column env (set OLD)) = true
    ∧ profiles_constraints d (delete i (profiles d))
        (update_updated_at_column env (set OLD)) = Ok tt
    ∧ log_balance_change env "UPDATE" "profiles" OLD
        (update_updated_at_column env (set OLD))
        (set_profiles (<[i:=update_updated_at_column env (set OLD)]> (profiles d)) d)
      = Ok d'.
Proof.
  intros Ht. unfold update_profile. rewrite Ht. cbv zeta. split.
  - intros H. apply check_bind in H as [Hp H].
    apply bind_Ok in H as ([] & Hc & H). done.
  - intros (Hp & Hc & Hl). rewrite Hp. simpl. rewrite Hc. simpl. done.
Qed.

(** ** Well-formedness is kept *)

Lemma transaction_ok_users (d d' : database) (r : Transactions.row) :
  (∀ u, u ∈ AuthUsers.id <$> auth_users d → u ∈ AuthUsers.id <$> auth_users d') →
  transaction_ok d r → transaction_ok d' r.
Proof. intros Hsub (Ha & Ht & Hs & Hu). split_and!; eauto. Qed.

Lemma audit_log_ok_users (d d' : database) (a : AuditLogs.row) :
  (∀ u, u ∈ AuthUsers.id <$> auth_users d → u ∈ AuthUsers.id <$> auth_users d') →
  audit_log_ok d a → audit_log_ok d' a.
Proof. intros Hsub (Ha & Ht & Hu). split_and!; eauto. Qed.

Lemma insert_audit_log_row_database_ok (NEW : AuditLogs.row) (d d' : database) :
  database_ok d → insert_audit_log_row NEW d = Ok d' → database_ok d'.
Proof.
  intros [] (Ha & Ht & Hid & Hu & ->)%insert_audit_log_row_iff.
  constructor; simpl; try done.
  - by apply NoDup_fmap_snoc.
  - apply Forall_app. split; [done|]. by apply Forall_singleton.
Qed.

Lemma log_balance_change_database_ok (env : pg_env) (op tbl : string)
    (OLD NEW : Profiles.row) (d d' : database) :
  database_ok d → log_balance_change env op tbl OLD NEW d = Ok d' → database_ok d'.
Proof.
  intros Hok. unfold log_balance_change. case_match.
  - by apply insert_audit_log_row_database_ok.
  - by intros [= <-].
Qed.

Lemma transaction_ok_stored (d : database) (others : list Transactions.row)
    (NEW : Transactions.row) :
  validate_transaction_amount NEW = Ok NEW →
  transactions_constraints d others NEW = Ok tt →
  transaction_ok d NEW.
Proof.
  intros Hv ([t Ht] & [a Ha] & Htype & Hstatus & _ & _ & Hu)%transactions_constraints_iff.
  split_and!; [|eauto|done|done].
  exists a. split; [done|]. by eapply validate_transaction_amount_in_range.
Qed.

Lemma insert_transaction_database_ok (s : role) (NEW : Transactions.row) (d d' : database) :
  database_ok d → insert_transaction s NEW d = Ok d' → database_ok d'.
Proof.
  intros [] (Hv & _ & Hc & ->)%insert_transaction_iff.
  pose proof (transaction_ok_stored _ _ _ Hv Hc) as Hrow.
  apply transactions_constraints_iff in Hc as (_ & _ & _ & _ & Hid & Href & _).
  constructor; simpl; try done.
  - by apply NoDup_fmap_snoc.
  - by apply NoDup_omap_snoc.
  - apply Forall_app. split; [done|]. by apply Forall_singleton.
Qed.

Lemma update_transaction_database_ok (s : role) (target : uuid)
    (set : Transactions.row → Transactions.row) (d d' : database) :
  database_ok d → update_transaction s target set d = Ok d' → database_ok d'.
Proof.
  intros Hok H.
  destruct (transactions_target s target d) as [[i OLD]|] eqn:Ht.
  - destruct (proj1 (update_transaction_iff s target set d d' i OLD Ht) H)
      as (Hv & _ & Hc & ->).
    pose proof (transaction_ok_stored _ _ _ Hv Hc) as Hrow.
    apply transactions_constraints_iff in Hc as (_ & _ & _ & _ & Hid & Href & _).
    destruct Hok. constructor; simpl; try done.
    + by apply NoDup_fmap_insert.
    + by apply NoDup_omap_insert.
    + by apply Forall_insert.
  - unfold update_transaction in H. rewrite Ht in H. by injection H as <-.
Qed.

Lemma Forall_filter_keep {A} (P Q : A → Prop) `{∀ x, Decision (Q x)} (l : list A) :
  Forall P l → Forall P (filter Q l).
Proof.
  rewrite !Forall_forall. intros Hl x [_ Hx]%list_elem_of_filter. by apply Hl.
Qed.

Lemma delete_transaction_database_ok (s : role) (target : uuid) (d d' : database) :
  database_ok d → delete_transaction s target d = Ok d' → database_ok d'.
Proof.
  intros [] [= <-]. constructor; simpl; try done.
  - by apply NoDup_fmap_filter.
  - by apply NoDup_omap_filter.
  - by apply Forall_filter_keep.
Qed.

Lemma create_identity_database_ok (env : pg_env) (NEW : AuthUsers.row) (d d' : database) :
  database_ok d → create_identity env NEW d = Ok d' → database_ok d'.
Proof.
  intros [] H. unfold create_identity in H.
  apply check_bind in H as [Hfresh%bool_decide_eq_true H].
  unfold handle_new_user, insert_profile_row in H.
  apply bind_Ok in H as ([] & (Hid & Hphone & _)%profiles_constraints_iff & [= <-]).
  simpl in *.
  assert (Hsub : ∀ u, u ∈ AuthUsers.id <$> auth_users d →
                      u ∈ AuthUsers.id <$> auth_users d ++ [NEW]).
  { intros u Hu. rewrite fmap_app. apply elem_of_app. by left. }
  constructor; simpl.
  - by apply NoDup_fmap_snoc.
  - by apply (NoDup_fmap_snoc Profiles.id).
  - intros v. rewrite !fmap_app, !elem_of_app. simpl. by rewrite ok_profiles_users0.
  - by apply NoDup_omap_snoc.
  - done.
  - done.
  - eapply Forall_impl; [done|]. intros r. by apply transaction_ok_users.
  - done.
  - eapply Forall_impl; [done|]. intros a. by apply audit_log_ok_users.
Qed.

(** With one profile per identity there is no room for the insert of
    another one. *)
Lemma insert_profile_database_ok (s : role) (NEW : Profiles.row) (d d' : database) :
  database_ok d → insert_profile s NEW d = Ok d' → False.
Proof.
  intros [] H. unfold insert_profile, insert_profile_row in H.
  apply check_bind in H as [_ H].
  apply bind_Ok in H as ([] & (Hid & _ & Hu)%profiles_constraints_iff & _).
  by apply Hid, ok_profiles_users0.
Qed.

(** An update of a profile cannot change its [id]: the new one has to be
    an identity, every identity has a profile, and no other profile may
    carry it. *)
Lemma update_profile_keeps_id (d : database) (i : nat) (OLD NEW : Profiles.row) :
  database_ok d → profiles d !! i = Some OLD →
  profiles_constraints d (delete i (profiles d)) NEW = Ok tt →
  Profiles.id NEW = Profiles.id OLD.
Proof.
  intros [] Hi (Hid & _ & Hu)%profiles_constraints_iff.
  apply ok_profiles_users0, list_elem_of_fmap in Hu as (p & Hp & [j Hj]%list_elem_of_lookup).
  destruct (decide (j = i)) as [->|Hne]; [congruence|].
  destruct Hid. rewrite Hp. apply list_elem_of_fmap_2, list_elem_of_lookup.
  destruct (decide (j < i)%nat).
  - exists j. by rewrite list_lookup_delete_lt.
  - exists (pred j). rewrite list_lookup_delete_ge by lia.
    by replace (S (pred j)) with j by lia.
Qed.

Lemma update_profile_database_ok (env : pg_env) (s : role) (target : uuid)
    (set : Profiles.row → Profiles.row) (d d' : database) :
  database_ok d → update_profile env s target set d = Ok d' → database_ok d'.
Proof.
  intros Hok H.
  destruct (profiles_target s target d) as [[i OLD]|] eqn:Ht.
  - destruct (proj1 (update_profile_iff env s target set d d' i OLD Ht) H)
      as (_ & Hc & Hlog).
    eapply log_balance_change_database_ok; [|exact Hlog].
    apply list_find_lookup in Ht as [Hi _].
    pose proof (update_profile_keeps_id _ _ _ _ Hok Hi Hc) as Hsame.
    apply profiles_constraints_iff in Hc as (Hid & Hphone & _).
    assert (Hids : Profiles.id <$> <[i:=update_updated_at_column env (set OLD)]> (profiles d)
                   = Profiles.id <$> profiles d).
    { rewrite list_fmap_insert, Hsame. apply list_insert_id.
      by rewrite list_lookup_fmap, Hi. }
    destruct Hok. constructor; simpl; try done.
    + by rewrite Hids.
    + intros v. by rewrite Hids.
    + by apply NoDup_omap_insert.
  - unfold update_profile in H. rewrite Ht in H. by injection H as <-.
Qed.

Lemma exec_database_ok (env : pg_env) (st : statement) (d d' : database) :
  database_ok d → exec env st d = Ok d' → database_ok d'.
Proof.
  intros Hok. destruct st; simpl.
  - by apply create_identity_database_ok.
  - intros H. by destruct (insert_profile_database_ok _ _ _ _ Hok H).
  - by apply update_profile_database_ok.
  - by apply insert_transaction_database_ok.
  - by apply update_transaction_database_ok.
  - by apply delete_transaction_database_ok.
  - unfold insert_audit_log. intros [_ H]%check_bind.
    by eapply insert_audit_log_row_database_ok.
Qed.

Lemma step_database_ok (d : database) (es : pg_env * statement) :
  database_ok d → database_ok (step d es).
Proof.
  intros Hok. unfold step.
  destruct (exec es.1 es.2 d) as [d'|e] eqn:H; simpl; [|done].
  by eapply exec_database_ok.
Qed.

Lemma run_database_ok (d : database) (trace : list (pg_env * statement)) :
  database_ok d → database_ok (run d trace).
Proof.
  revert d. induction trace as [|es trace IH]; intros d Hok; simpl; [done|].
  by apply IH, step_database_ok.
Qed.

Lemma empty_database_ok : database_ok empty_database.
Proof.
  constructor; simpl; try apply NoDup_nil_2; try apply Forall_nil_2. done.
Qed.

Lemma reachable_database_ok (d : database) : reachable d → database_ok d.
Proof. intros [trace ->]. apply run_database_ok, empty_database_ok. Qed.

(** ** Invariants of the reachable states *)

Example db0_reachable : reachable db0.
Proof. exists trace0. vm_compute. reflexivity. Qed.

(** X1. In every reachable state each identity has exactly one profile,
    and every profile belongs to an identity. *)
Theorem one_profile_per_identity (d : database) :
  reachable d →
  (∀ u, u ∈ auth_users d →
        ∃ p, filter (λ r, Profiles.id r = AuthUsers.id u) (profiles d) = [p])
  ∧ (∀ p, p ∈ profiles d → ∃ u, u ∈ auth_users d ∧ AuthUsers.id u = Profiles.id p).
Proof.
  intros [] %reachable_database_ok. split.
  - intros u Hu.
    assert (Hp : AuthUsers.id u ∈ Profiles.id <$> profiles d)
      by (by apply ok_profiles_users0, list_elem_of_fmap_2).
    apply list_elem_of_fmap in Hp as (p & Hid & Hp).
    exists p. rewrite Hid. by apply filter_key.
  - intros p Hp.
    assert (Hu : Profiles.id p ∈ AuthUsers.id <$> auth_users d)
      by (by apply ok_profiles_users0, list_elem_of_fmap_2).
    apply list_elem_of_fmap in Hu as (u & Hid & Hu). by exists u.
Qed.

(** X2. In every reachable state every stored transaction has an amount
    in (0, 100000000], one of the four types, a status that is NULL or
    one of the three allowed, and an owner that is NULL or an identity. *)
Theorem stored_transactions_valid (d : database) (r : Transactions.row) :
  reachable d → r ∈ transactions d →
  (∃ a, Transactions.amount r = Some a ∧ 0 < a ≤ numeric_of_int 100000000)
  ∧ (∃ t, Transactions.type r = Some t
        ∧ t ∈ ["deposit"; "withdrawal"; "transfer"; "verification_payment"])
  ∧ (∀ st, Transactions.status r = Some st → st ∈ ["pending"; "completed"; "failed"])
  ∧ (∀ u, Transactions.user_id r = Some u → u ∈ AuthUsers.id <$> auth_users d).
Proof.
  intros [] %reachable_database_ok Hr.
  by apply (proj1 (Forall_forall _ _) ok_transactions_rows0 r Hr).
Qed.

(** X3. In every reachable state the unique columns are unique: no two
    transactions share an [id] or a non-null [reference], no two profiles
    a non-null [phone_number], no two audit rows an [id]. *)
Theorem unique_columns_hold (d : database) :
  reachable d →
  NoDup (Transactions.id <$> transactions d)
  ∧ NoDup (omap Transactions.reference (transactions d))
  ∧ NoDup (omap Profiles.phone_number (profiles d))
  ∧ NoDup (AuditLogs.id <$> audit_logs d).
Proof. by intros [] %reachable_database_ok. Qed.

(** ** The audit log through the API *)

Lemma filter_all {A} (P : A → Prop) `{∀ x, Decision (P x)} (l : list A) :
  (∀ x, x ∈ l → P x) → filter P l = l.
Proof.
  intros Hl. induction l as [|x l IH]; [done|].
  rewrite filter_cons_True by (apply Hl; left).
  f_equal. apply IH. intros y Hy. apply Hl. by right.
Qed.

Lemma set_audit_logs_id (d : database) : set_audit_logs (audit_logs d) d = d.
Proof. by destruct d. Qed.

Lemma set_profiles_id (d : database) : set_profiles (profiles d) d = d.
Proof. by destruct d. Qed.

Lemma set_transactions_id (d : database) : set_transactions (transactions d) d = d.
Proof. by destruct d. Qed.

Lemma no_policy_denies (s : role) : s ≠ service_role → ¬ no_policy s.
Proof. destruct s; simpl; intros Hs H; [done | done | by apply Hs]. Qed.

(** X4. The audit log only grows: every statement leaves the rows it
    holds in place and at most appends to them, along whole runs too, and
    a session that does not bypass row security can update or delete no
    audit row, the table having no policy for either command. *)
Theorem audit_logs_append_only :
  (∀ env st d d', exec env st d = Ok d' → audit_logs d `prefix_of` audit_logs d')
  ∧ (∀ d trace, audit_logs d `prefix_of` audit_logs (run d trace))
  ∧ (∀ s target set d, s ≠ service_role → update_audit_log s target set d = Ok d)
  ∧ (∀ s target d, s ≠ service_role → delete_audit_log s target d = Ok d).
Proof.
  assert (Hexec : ∀ env st d d', exec env st d = Ok d' →
                    audit_logs d `prefix_of` audit_logs d').
  { intros env st d d' H. destruct (exec_effect _ _ _ _ H) as [[l ->] _].
    by apply prefix_app_r. }
  split_and!.
  - done.
  - intros d trace. revert d.
    induction trace as [|es trace IH]; intros d; simpl; [done|].
    etrans; [|apply IH]. unfold step.
    destruct (exec es.1 es.2 d) as [d'|e] eqn:H; simpl; [by eapply Hexec|done].
  - intros s target set d Hs%no_policy_denies. unfold update_audit_log.
    destruct (list_find _ _) as [[i OLD]|] eqn:Hf; [|done].
    by apply list_find_lookup in Hf as [_ [_ ?]].
  - intros s target d Hs%no_policy_denies. unfold delete_audit_log.
    rewrite filter_all; [by rewrite set_audit_logs_id|].
    by intros r _ [_ ?].
Qed.

Lemma audit_logs_select_policy_iff (U : uuid) (r : AuditLogs.row) :
  audit_logs_select_policy (authenticated U) r = true ↔ AuditLogs.user_id r = Some U.
Proof.
  unfold audit_logs_select_policy. cbn [bypassrls auth_uid orb].
  rewrite sql_true_eq. split.
  - by intros (v & [= <-] & ?).
  - intros ?. by exists U.
Qed.

(** X5. The insert policy of the audit log is [WITH CHECK (true)]: any
    session, anonymous ones included, can write an audit row that names
    any identity, as long as the row meets the constraints of the table;
    the identity named then finds the row in its own audit log, and no
    other identity does. *)
Theorem audit_logs_insert_open (s : role) (NEW : AuditLogs.row) (d : database) (V : uuid) :
  AuditLogs.user_id NEW = Some V →
  V ∈ AuthUsers.id <$> auth_users d →
  is_Some (AuditLogs.action NEW) →
  is_Some (AuditLogs.table_name NEW) →
  AuditLogs.id NEW ∉ AuditLogs.id <$> audit_logs d →
  ∃ d', insert_audit_log s NEW d = Ok d'
      ∧ audit_logs d' = audit_logs d ++ [NEW]
      ∧ NEW ∈ from_audit_logs_select (authenticated V) d'
      ∧ (∀ U, U ≠ V → NEW ∉ from_audit_logs_select (authenticated U) d').
Proof.
  intros HV Hu Ha Ht Hid.
  exists (set_audit_logs (audit_logs d ++ [NEW]) d). split_and!.
  - unfold insert_audit_log, audit_logs_insert_policy. rewrite orb_true_r. simpl.
    apply insert_audit_log_row_iff. split_and!; try done.
    intros u Hu'. rewrite HV in Hu'. by injection Hu' as <-.
  - done.
  - unfold from_audit_logs_select. apply list_elem_of_filter. split.
    + by apply Is_true_true, audit_logs_select_policy_iff.
    + simpl. apply elem_of_app. right. left.
  - intros U HUV [Hp _]%list_elem_of_filter.
    apply Is_true_true, audit_logs_select_policy_iff in Hp. congruence.
Qed.

(** ** Updates of a profile *)

(** X6. Whatever an update of a profile writes, the row stored carries
    the server's [now()] as [updated_at]; every other column is as the
    update set it, and the other rows stay as they were. *)
Theorem update_stamps_updated_at (env : pg_env) (s : role) (target : uuid)
    (set : Profiles.row → Profiles.row) (d d' : database) (i : nat) (OLD : Profiles.row) :
  profiles_target s target d = Some (i, OLD) →
  update_profile env s target set d = Ok d' →
  (∃ NEW, profiles d' !! i = Some NEW
      ∧ Profiles.updated_at NEW = Some (now env)
      ∧ Profiles.id NEW = Profiles.id (set OLD)
      ∧ Profiles.phone_number NEW = Profiles.phone_number (set OLD)
      ∧ Profiles.full_name NEW = Profiles.full_name (set OLD)
      ∧ Profiles.balance NEW = Profiles.balance (set OLD)
      ∧ Profiles.is_verified NEW = Profiles.is_verified (set OLD)
      ∧ Profiles.has_paid_verification NEW = Profiles.has_paid_verification (set OLD)
      ∧ Profiles.created_at NEW = Profiles.created_at (set OLD))
  ∧ (∀ j, j ≠ i → profiles d' !! j = profiles d !! j).
Proof.
  intros Ht Hu.
  destruct (update_profile_Ok _ _ _ _ _ _ _ _ Ht Hu) as (_ & _ & -> & _).
  apply list_find_lookup in Ht as [Hi _]. split.
  - exists (update_updated_at_column env (set OLD)). split; [|by split_and!].
    apply list_lookup_insert_eq. by eapply lookup_lt_Some.
  - intros j Hj. by apply list_lookup_insert_ne.
Qed.

Lemma profiles_policy_authenticated (U : uuid) (r : Profiles.row) :
  profiles_policy (authenticated U) r = true ↔ Profiles.id r = U.
Proof.
  unfold profiles_policy. cbn [bypassrls auth_uid orb].
  rewrite sql_true_eq. split.
  - by intros (v & [= <-] & [= ->]).
  - intros <-. by eexists.
Qed.

Lemma profiles_target_owner (U : uuid) (d : database) (i : nat) (OLD : Profiles.row) :
  database_ok d → profiles d !! i = Some OLD → Profiles.id OLD = U →
  profiles_target (authenticated U) U d = Some (i, OLD).
Proof.
  intros [] Hi HU. unfold profiles_target.
  apply (list_find_key Profiles.id); try done.
  - split; [done|]. by apply Is_true_true, profiles_policy_authenticated.
  - intros y [Hy _]. congruence.
Qed.

(** X7. The update policy of the profiles lets an identity rewrite its
    own row: in a reachable state an authenticated identity can set its
    balance, its verification flags and its name to any value (any update
    that keeps [id] and [phone_number]); the update succeeds whenever the
    uuid generated for the audit row is not taken. *)
Theorem profiles_update_allows_owner (env : pg_env) (U : uuid)
    (set : Profiles.row → Profiles.row) (d : database) (i : nat) (OLD : Profiles.row) :
  reachable d →
  profiles d !! i = Some OLD → Profiles.id OLD = U →
  Profiles.id (set OLD) = U →
  Profiles.phone_number (set OLD) = Profiles.phone_number OLD →
  gen_random_uuid env 0 ∉ AuditLogs.id <$> audit_logs d →
  ∃ d', update_profile env (authenticated U) U set d = Ok d'
      ∧ profiles d' = <[i:=update_updated_at_column env (set OLD)]> (profiles d).
Proof.
  intros Hok%reachable_database_ok Hi HU Hid Hphone Hfresh.
  pose proof (profiles_target_owner U d i OLD Hok Hi HU) as Ht.
  set (NEW := update_updated_at_column env (set OLD)).
  set (d2 := set_profiles (<[i:=NEW]> (profiles d)) d).
  assert (Hin : U ∈ AuthUsers.id <$> auth_users d).
  { destruct Hok. apply ok_profiles_users0. rewrite <- HU. apply list_elem_of_fmap_2.
    by eapply list_elem_of_lookup_2. }
  assert (Hlog : ∃ d', log_balance_change env "UPDATE" "profiles" OLD NEW d2 = Ok d'
                     ∧ profiles d' = <[i:=NEW]> (profiles d)).
  { unfold log_balance_change. case_match; [|by eexists].
    exists (set_audit_logs
              (audit_logs d2 ++ [balance_audit_row env "UPDATE" "profiles" OLD NEW]) d2).
    split; [|done].
    apply insert_audit_log_row_iff. split_and!; try done; simpl; eauto.
    intros u [= <-]. by rewrite Hid. }
  destruct Hlog as (d' & Hlog & Hprof). exists d'. split; [|done].
  apply (update_profile_iff env (authenticated U) U set d d' i OLD Ht). split_and!.
  - by apply profiles_policy_authenticated.
  - apply profiles_constraints_iff. destruct Hok. split_and!.
    + simpl. rewrite Hid, <- HU. by apply NoDup_fmap_lookup_delete.
    + simpl. rewrite Hphone. intros v Hv. by eapply NoDup_omap_lookup_delete.
    + simpl. by rewrite Hid.
  - done.
Qed.

(** ** Writes touch the caller's rows only *)

Lemma transactions_policy_authenticated (U : uuid) (r : Transactions.row) :
  transactions_policy (authenticated U) r = true ↔ Transactions.user_id r = Some U.
Proof.
  unfold transactions_policy. cbn [bypassrls auth_uid orb].
  rewrite sql_true_eq. split.
  - by intros (v & [= <-] & ?).
  - intros ?. by exists U.
Qed.

Lemma filter_insert_skip {A} (P : A → Prop) `{∀ x, Decision (P x)} (l : list A)
    (i : nat) (x y : A) :
  l !! i = Some x → ¬ P x → ¬ P y → filter P (<[i:=y]> l) = filter P l.
Proof.
  intros Hi Hx Hy.
  rewrite insert_take_drop by (by eapply lookup_lt_Some).
  rewrite <- (take_drop_middle l i x Hi) at 3.
  by rewrite !filter_app, !filter_cons_False.
Qed.

Lemma filter_filter_skip {A} (P Q : A → Prop) `{∀ x, Decision (P x)}
    `{∀ x, Decision (Q x)} (l : list A) :
  (∀ x, P x → Q x) → filter P (filter Q l) = filter P l.
Proof.
  intros HPQ. induction l as [|x l IH]; [done|].
  destruct (decide (Q x)) as [HQ|HQ].
  - rewrite (filter_cons_True Q) by done. destruct (decide (P x)).
    + rewrite !(filter_cons_True P) by done. by f_equal.
    + by rewrite !(filter_cons_False P) by done.
  - rewrite (filter_cons_False Q) by done.
    rewrite (filter_cons_False P); [done|]. intros HP. by apply HQ, HPQ.
Qed.

(** X8. No statement an authenticated identity [U] issues changes the
    profile of another identity: every row whose [id] is not [U] is
    afterwards where it was. *)
Theorem profiles_of_others_untouched (env : pg_env) (U : uuid) (st : statement)
    (d d' : database) :
  statement_session st = Some (authenticated U) →
  exec env st d = Ok d' →
  ∀ j p, profiles d !! j = Some p → Profiles.id p ≠ U → profiles d' !! j = Some p.
Proof.
  intros Hs H j p Hj Hne.
  destruct (exec_effect _ _ _ _ H)
    as [_ [->|[(q & -> & _)|(s & target & set & i & OLD & -> & Ht)]]].
  - done.
  - by apply lookup_app_l_Some.
  - injection Hs as ->. simpl in H.
    destruct (update_profile_Ok _ _ _ _ _ _ _ _ Ht H) as (_ & _ & -> & _).
    apply list_find_lookup in Ht as [Hi [_ Hp%Is_true_true%profiles_policy_authenticated]].
    rewrite list_lookup_insert_ne; [done|]. intros <-. congruence.
Qed.

(** X9. No statement an authenticated identity [U] issues changes the
    transactions of others: the rows not owned by [U] are the same before
    and after, in the same order.  It can neither insert a row for
    someone else, nor update or delete one, nor hand a row of its own
    over. *)
Theorem transactions_of_others_untouched (env : pg_env) (U : uuid) (st : statement)
    (d d' : database) :
  statement_session st = Some (authenticated U) →
  exec env st d = Ok d' →
  filter (λ r, Transactions.user_id r ≠ Some U) (transactions d')
  = filter (λ r, Transactions.user_id r ≠ Some U) (transactions d).
Proof.
  intros Hs H.
  destruct st as [NEW|s NEW|s target set|s NEW|s target set|s target|s NEW];
    simpl in Hs, H; [done|injection Hs as ->..].
  - unfold insert_profile in H. apply check_bind in H as [_ H].
    by apply insert_profile_row_Ok in H as [-> _].
  - destruct (profiles_target (authenticated U) target d) as [[i OLD]|] eqn:Ht.
    + by destruct (update_profile_Ok _ _ _ _ _ _ _ _ Ht H) as (_ & _ & _ & -> & _).
    + unfold update_profile in H. rewrite Ht in H. by injection H as <-.
  - apply insert_transaction_Ok in H as [-> Hp%transactions_policy_authenticated].
    simpl. rewrite filter_app, filter_cons_False, filter_nil, app_nil_r; [done|].
    by intros Hne.
  - destruct (transactions_target (authenticated U) target d) as [[i OLD]|] eqn:Ht.
    + destruct (proj1 (update_transaction_iff _ _ set d d' i OLD Ht) H)
        as (_ & Hp%transactions_policy_authenticated & _ & ->).
      apply list_find_lookup in Ht
        as [Hi [_ Hold%Is_true_true%transactions_policy_authenticated]].
      simpl. by apply (filter_insert_skip _ _ _ OLD); [|intros Hne..].
    + unfold update_transaction in H. rewrite Ht in H. by injection H as <-.
  - injection H as <-. simpl. apply filter_filter_skip.
    intros r Hne [_ Hp%Is_true_true%transactions_policy_authenticated]. done.
  - unfold insert_audit_log in H. apply check_bind in H as [_ H].
    by apply insert_audit_log_row_Ok in H as [-> _].
Qed.

(** ** The verification payment, again *)

(** X10. The insert of the verification payment by an authenticated
    session succeeds exactly when the user of the page is the identity of
    the session, that identity exists, and the generated [id] and
    [reference] are not taken.  Rows already stored, pending verification
    payments among them, do not stand in its way: nothing makes the
    payment unique. *)
Theorem verification_payment_insert_iff (env : pg_env) (U : uuid) (u : User) (d : database) :
  (∃ d', insert_transaction (authenticated U) (verification_payment env u) d = Ok d')
  ↔ User_id u = U
    ∧ U ∈ AuthUsers.id <$> auth_users d
    ∧ (gen_random_uuid env 0 ∉ Transactions.id <$> transactions d)
    ∧ (Some (gen_random_uuid env 1) ∉ Transactions.reference <$> transactions d).
Proof.
  split.
  - intros (d' & (_ & Hp%transactions_policy_authenticated & Hc & _)%insert_transaction_iff).
    apply transactions_constraints_iff in Hc as (_ & _ & _ & _ & Hid & Href & Hu).
    simpl in *. injection Hp as Hp. split_and!; [done| |done|by apply Href].
    rewrite <- Hp. by apply Hu.
  - intros (<- & Hu & Hid & Href). eexists.
    apply insert_transaction_iff. split_and!; [done| |  |done].
    + by apply transactions_policy_authenticated.
    + apply transactions_constraints_iff. simpl. split_and!; try done.
      * intros t [= <-]. do 3 right. left.
      * intros st [= <-]. left.
      * by intros v [= <-].
      * by intros v [= <-].
Qed.

Lemma fetchTransactions_frame (rq : request) (w : world) :
  sent (fetchTransactions rq w) = sent w ++ [select_transactions]
  ∧ State.toasts (view (fetchTransactions rq w)) = State.toasts (view w)
  ∧ State.loading (view (fetchTransactions rq w)) = State.loading (view w).
Proof. unfold fetchTransactions. by case_match. Qed.

Lemma transactions_insert_error (rq : request) (NEW : Transactions.row) (d : database)
    (e : client_error) :
  error (transactions_insert rq NEW d).2 = Some e → (transactions_insert rq NEW d).1 = d.
Proof.
  unfold transactions_insert. destruct (fault rq); [done|].
  by destruct (insert_transaction (session rq) NEW d).
Qed.

(** X11. A call of [handleVerificationPayment] that passes the guard
    ends with [loading] false, whether the insert succeeded or not, and
    shows exactly one notification.  After a successful insert it has
    sent the insert and one read of the transactions; after a failed one
    it has sent the insert only, the notification is the destructive one
    carrying the error, and the database, the session and the list on
    screen are as before. *)
Theorem handleVerificationPayment_bookkeeping
    (refreshProfile : request → database → AuthContext → AuthContext)
    (rq_insert rq_fetch rq_profile : request) (w : world) (u : User) (p : Profiles.row) :
  user (auth w) = Some u → profile (auth w) = Some p →
  let ins := transactions_insert rq_insert (verification_payment (server rq_insert) u) (db w) in
  let r := handleVerificationPayment refreshProfile rq_insert rq_fetch rq_profile w in
  State.loading (view r.1) = false
  ∧ r.2 = js_undefined
  ∧ (error ins.2 = None →
       sent r.1 = sent w ++ [insert_transactions; select_transactions]
       ∧ ∃ t, State.toasts (view r.1) = State.toasts (view w) ++ [t]
            ∧ title t = "Verification Payment Required"
            ∧ variant t = "default")
  ∧ (∀ e, error ins.2 = Some e →
       sent r.1 = sent w ++ [insert_transactions]
       ∧ State.toasts (view r.1) =
           State.toasts (view w) ++
             [{| title := "Error"; description := error_message e;
                 variant := "destructive" |}]
       ∧ State.transactions (view r.1) = State.transactions (view w)
       ∧ db r.1 = db w
       ∧ auth r.1 = auth w).
Proof.
  intros Hu Hp ins r.
  pose proof (transactions_insert_error rq_insert
                (verification_payment (server rq_insert) u) (db w)) as Herr.
  subst ins r. unfold handleVerificationPayment. rewrite Hu, Hp. simpl.
  destruct (transactions_insert rq_insert (verification_payment (server rq_insert) u) (db w))
    as [d1 resp]. simpl in *.
  destruct (error resp) as [e|] eqn:He; simpl.
  - split_and!; [done|done|done|].
    intros e' [= <-]. rewrite (Herr e eq_refl). by split_and!.
  - split_and!; [done|done| |done].
    intros _.
    match goal with
    | |- context [fetchTransactions rq_fetch ?w1] =>
        destruct (fetchTransactions_frame rq_fetch w1) as (-> & -> & _)
    end.
    simpl. rewrite <- app_assoc. split; [done|]. eexists. by split_and!.
Qed.

Lemma StronglySorted_head {A} (R : relation A) `{!Total R} (l : list A) (x : A) :
  StronglySorted R l → x ∈ l → (∀ y, y ∈ l → R y x → y = x) → head l = Some x.
Proof.
  intros Hs Hx Hmax. destruct l as [|z l]; [by apply elem_of_nil in Hx|].
  simpl. f_equal. apply Hmax; [left|].
  apply elem_of_cons in Hx as [Heq|Hx].
  - subst z. by destruct (total R x x).
  - apply StronglySorted_cons in Hs as [Hz _].
    by apply (proj1 (Forall_forall _ _) Hz).
Qed.

(** X12. After a successful verification payment the list on screen
    starts with the new row, provided the read that follows does not
    fail, runs in the same session, and the rows the user already owns
    were all created before the server's [now()]. *)
Theorem handleVerificationPayment_shows_new_row
    (refreshProfile : request → database → AuthContext → AuthContext)
    (rq_insert rq_fetch rq_profile : request) (w : world) (u : User) (p : Profiles.row)
    (d' : database) :
  user (auth w) = Some u → profile (auth w) = Some p →
  fault rq_insert = None → fault rq_fetch = None →
  session rq_fetch = session rq_insert →
  insert_transaction (session rq_insert) (verification_payment (server rq_insert) u) (db w)
  = Ok d' →
  (∀ r, r ∈ transactions (db w) → Transactions.user_id r = Some (User_id u) →
        ∃ t, Transactions.created_at r = Some t ∧ t < now (server rq_insert)) →
  head (State.transactions
          (view (handleVerificationPayment refreshProfile rq_insert rq_fetch rq_profile w).1))
  = Some (verification_payment (server rq_insert) u).
Proof.
  intros Hu Hp Hf1 Hf2 Hs Hi Hold.
  set (NEW := verification_payment (server rq_insert) u) in *.
  unfold handleVerificationPayment, transactions_insert.
  rewrite Hu, Hp, Hf1. fold NEW. simpl. rewrite Hi. simpl.
  apply insert_transaction_Ok in Hi as [-> Hpol].
  unfold fetchTransactions, transactions_query. simpl. rewrite Hu, Hf2, Hs. simpl.
  set (own := eq_user_id (User_id u) (from_transactions_select (session rq_insert) _)).
  assert (Hown : ∀ y, y ∈ own → y = NEW ∨
            ∃ t, Transactions.created_at y = Some t ∧ t < now (server rq_insert)).
  { intros y. unfold own, eq_user_id, from_transactions_select. simpl.
    intros [Hy1 Hy2]%list_elem_of_filter.
    apply Is_true_true, sql_true_eq in Hy1 as (v & Hy1 & [= <-]).
    apply list_elem_of_filter in Hy2 as [_ Hy2].
    apply elem_of_app in Hy2 as [Hy2|Hy2].
    - right. by apply Hold.
    - left. by apply list_elem_of_singleton in Hy2. }
  assert (HNEW : NEW ∈ own).
  { unfold own, eq_user_id, from_transactions_select. simpl.
    apply list_elem_of_filter. split.
    - apply Is_true_true, sql_true_eq. by eexists.
    - apply list_elem_of_filter. split; [by apply Is_true_true|].
      apply elem_of_app. right. left. }
  assert (Hhead : head (order_created_at_desc own) = Some NEW).
  { unfold order_created_at_desc.
    apply (StronglySorted_head created_at_desc).
    - apply StronglySorted_merge_sort; apply _.
    - by rewrite merge_sort_Permutation.
    - intros y Hy HR. rewrite merge_sort_Permutation in Hy.
      destruct (Hown y Hy) as [->|(t & Ht & Hlt)]; [done|].
      unfold created_at_desc in HR. rewrite Ht in HR. simpl in HR. lia. }
  unfold limit. destruct (order_created_at_desc own); [done|]. done.
Qed.

(** X13. [fetchTransactions] shows the newest rows the identity can see:
    the rows on screen and the rows left out make up the identity's rows,
    no row left out is newer than a row shown, and nothing is left out
    when the identity has at most 10 rows. *)
Theorem fetchTransactions_newest (rq : request) (w : world) (u : User) :
  user (auth w) = Some u → fault rq = None →
  ∃ rest,
    State.transactions (view (fetchTransactions rq w)) ++ rest
      ≡ₚ eq_user_id (User_id u) (from_transactions_select (session rq) (db w))
    ∧ (∀ x y, x ∈ State.transactions (view (fetchTransactions rq w)) → y ∈ rest →
              created_at_desc x y)
    ∧ ((List.length (eq_user_id (User_id u) (from_transactions_select (session rq) (db w)))
        ≤ 10)%nat → rest = []).
Proof.
  intros Hu Hf. unfold fetchTransactions, transactions_query. simpl. rewrite Hu, Hf. simpl.
  set (own := eq_user_id (User_id u) (from_transactions_select (session rq) (db w))).
  exists (drop 10 (order_created_at_desc own)). unfold limit. split_and!.
  - rewrite take_drop. apply merge_sort_Permutation.
  - intros x y Hx Hy.
    apply (StronglySorted_app_1_elem_of created_at_desc
             (take 10 (order_created_at_desc own)) (drop 10 (order_created_at_desc own)));
      [|done|done].
    rewrite take_drop. apply StronglySorted_merge_sort; apply _.
  - intros Hlen. apply drop_ge. unfold order_created_at_desc.
    by rewrite merge_sort_Permutation.
Qed.

(** ** What is rendered for stored rows *)

(** X14. For a transaction of a reachable state the icon is never the
    fallback [History] of the switch, the four types have four different
    icons, and the badge takes the fallback colour exactly when the
    status is NULL. *)
Theorem stored_transactions_rendering (d : database) (r : Transactions.row) :
  reachable d → r ∈ transactions d →
  (∃ t, Transactions.type r = Some t
      ∧ icon (getTransactionIcon t) ≠ History
      ∧ (∀ r' t', r' ∈ transactions d → Transactions.type r' = Some t' →
                  icon (getTransactionIcon t') = icon (getTransactionIcon t) → t' = t))
  ∧ (getStatusColor (Transactions.status r) = "bg-gray-100 text-gray-800"
     ↔ Transactions.status r = None).
Proof.
  intros Hok%reachable_database_ok Hr.
  assert (Hrows : ∀ x, x ∈ transactions d → transaction_ok d x).
  { destruct Hok. by apply Forall_forall. }
  destruct (Hrows r Hr) as (_ & (t & Ht & Htype) & Hstatus & _).
  split.
  - exists t. split; [done|].
    assert (Hicon : ∀ t1 t2,
      t1 ∈ ["deposit"; "withdrawal"; "transfer"; "verification_payment"] →
      t2 ∈ ["deposit"; "withdrawal"; "transfer"; "verification_payment"] →
      icon (getTransactionIcon t1) ≠ History
      ∧ (icon (getTransactionIcon t2) = icon (getTransactionIcon t1) → t2 = t1)).
    { intros t1 t2 H1 H2.
      repeat (apply elem_of_cons in H1 as [->|H1]); [..|by apply elem_of_nil in H1];
        (repeat (apply elem_of_cons in H2 as [->|H2]); [..|by apply elem_of_nil in H2]);
        by split. }
    split; [by apply (Hicon t t)|].
    intros r' t' Hr' Ht' Heq.
    destruct (Hrows r' Hr') as (_ & (t'' & Ht'' & Htype') & _).
    rewrite Ht' in Ht''. injection Ht'' as <-. by apply (Hicon t t').
  - destruct (Transactions.status r) as [st|]; [|done].
    specialize (Hstatus st eq_refl).
    repeat (apply elem_of_cons in Hstatus as [->|Hstatus]);
      [..|by apply elem_of_nil in Hstatus]; by split.
Qed.

(** X15. The dashboard of a newly created identity: its profile makes
    the verification alert appear, disables the Withdraw Funds button and
    shows the badge Unverified; the header greets it by its [full_name]
    claim, and by the word User when the claim is missing, null or
    empty. *)
Theorem new_identity_dashboard (env : pg_env) (NEW : AuthUsers.row) (d d' : database) :
  create_identity env NEW d = Ok d' →
  ∃ p, p ∈ profiles d'
     ∧ Profiles.id p = AuthUsers.id NEW
     ∧ verification_alert p = true
     ∧ withdraw_disabled p = true
     ∧ verified_badge p = "Unverified"
     ∧ (∀ n, json_get_text (AuthUsers.raw_user_meta_data NEW) "full_name" = Some n →
             n ≠ "" → welcome_name p = n)
     ∧ (json_get_text (AuthUsers.raw_user_meta_data NEW) "full_name" = None
        ∨ json_get_text (AuthUsers.raw_user_meta_data NEW) "full_name" = Some "" →
        welcome_name p = "User").
Proof.
  intros H. unfold create_identity in H. apply check_bind in H as [_ H].
  apply insert_profile_row_Ok in H as [-> _].
  eexists. split; [simpl; apply elem_of_app; right; left|].
  unfold welcome_name. simpl. split_and!; try done.
  - intros n -> Hn. simpl. by destruct n.
  - by intros [->| ->].
Qed.

(** ** When the other writes succeed *)

(** X16. In a reachable state the provisioning trigger, run for an
    identity whose [id] is new, succeeds exactly when the identity has no
    phone number or its phone number is not the [phone_number] of a
    profile; otherwise the creation of the identity fails.  A profile
    that carries the number of somebody else keeps that person from
    signing up. *)
Theorem handle_new_user_succeeds_iff (env : pg_env) (NEW : AuthUsers.row) (d : database) :
  reachable d →
  AuthUsers.id NEW ∉ AuthUsers.id <$> auth_users d →
  ((∃ d', handle_new_user env NEW (set_auth_users (auth_users d ++ [NEW]) d) = Ok d')
   ↔ (∀ ph, AuthUsers.phone NEW = Some ph →
            Some ph ∉ Profiles.phone_number <$> profiles d))
  ∧ ((∃ d', create_identity env NEW d = Ok d')
     ↔ (∃ d', handle_new_user env NEW (set_auth_users (auth_users d ++ [NEW]) d) = Ok d')).
Proof.
  intros Hok%reachable_database_ok Hid. split.
  - unfold handle_new_user, insert_profile_row. split.
    + intros (d' & H).
      by apply bind_Ok in H as ([] & (_ & Hphone & _)%profiles_constraints_iff & _).
    + intros Hphone. eexists.
      apply bind_Ok. exists tt. split; [|done].
      apply profiles_constraints_iff. simpl. split_and!; [|done|].
      * destruct Hok. by rewrite ok_profiles_users0.
      * rewrite fmap_app. apply elem_of_app. right. left.
  - unfold create_identity. split; intros (d' & H); exists d'.
    + by apply check_bind in H as [_ H].
    + apply check_bind. split; [by apply bool_decide_eq_true|done].
Qed.

Lemma transactions_target_owner (U : uuid) (d : database) (i : nat) (OLD : Transactions.row) :
  database_ok d → transactions d !! i = Some OLD → Transactions.user_id OLD = Some U →
  transactions_target (authenticated U) (Transactions.id OLD) d = Some (i, OLD).
Proof.
  intros [] Hi HU. unfold transactions_target.
  apply (list_find_key Transactions.id); try done.
  - split; [done|]. by apply Is_true_true, transactions_policy_authenticated.
  - by intros y [Hy _].
Qed.

(** X17. The update policy of the transactions lets the owner rewrite a
    row of its own: in a reachable state an update that keeps [id],
    owner and [reference] and yields an amount in range, an allowed type
    and a status that is allowed or NULL succeeds, whatever the old row
    was.  No order of the statuses is enforced: a pending row can be set
    to completed and back. *)
Theorem transactions_update_allows_owner (U : uuid)
    (set : Transactions.row → Transactions.row) (d : database) (i : nat)
    (OLD : Transactions.row) (a : numeric) (t : string) :
  reachable d →
  transactions d !! i = Some OLD → Transactions.user_id OLD = Some U →
  Transactions.id (set OLD) = Transactions.id OLD →
  Transactions.user_id (set OLD) = Some U →
  Transactions.reference (set OLD) = Transactions.reference OLD →
  Transactions.amount (set OLD) = Some a → 0 < a ≤ numeric_of_int 100000000 →
  Transactions.type (set OLD) = Some t →
  t ∈ ["deposit"; "withdrawal"; "transfer"; "verification_payment"] →
  (∀ st, Transactions.status (set OLD) = Some st → st ∈ ["pending"; "completed"; "failed"]) →
  update_transaction (authenticated U) (Transactions.id OLD) set d
  = Ok (set_transactions (<[i:=set OLD]> (transactions d)) d).
Proof.
  intros Hok%reachable_database_ok Hi HU Hid Howner Href Ha Hrange Ht Htype Hstatus.
  pose proof (transactions_target_owner U d i OLD Hok Hi HU) as Htarget.
  apply (update_transaction_iff _ _ set d _ i OLD Htarget). split_and!; [| | |done].
  - by eapply validate_transaction_amount_accepts.
  - by apply transactions_policy_authenticated.
  - apply transactions_constraints_iff. destruct Hok. split_and!; eauto.
    + intros t' Ht'. rewrite Ht in Ht'. by injection Ht' as <-.
    + rewrite Hid. by apply NoDup_fmap_lookup_delete.
    + rewrite Href. intros v Hv. by eapply NoDup_omap_lookup_delete.
    + intros u Hu. rewrite Howner in Hu. injection Hu as <-.
      destruct (proj1 (Forall_forall _ _) ok_transactions_rows0 OLD) as (_ & _ & _ & Hfk);
        [by eapply list_elem_of_lookup_2|]. by apply Hfk.
Qed.

Lemma filter_key_delete {A B} (f : A → B) (P : A → Prop) `{∀ x, Decision (P x)}
    (l : list A) (i : nat) (x : A) :
  NoDup (f <$> l) → l !! i = Some x → ¬ P x → (∀ y, f y ≠ f x → P y) →
  filter P l = delete i l.
Proof.
  intros Hl Hi Hx Hother.
  rewrite delete_take_drop. rewrite <- (take_drop_middle l i x Hi) at 1.
  rewrite <- (take_drop_middle l i x Hi), fmap_app, fmap_cons in Hl.
  apply NoDup_app in Hl as (_ & HAB & [HB _]%NoDup_cons).
  rewrite filter_app, filter_cons_False by done.
  rewrite !filter_all; [done| |].
  - intros y Hy. apply Hother. intros Heq. apply HB. rewrite <- Heq.
    by apply list_elem_of_fmap_2.
  - intros y Hy. apply Hother. intros Heq. apply (HAB (f y)).
    + by apply list_elem_of_fmap_2.
    + rewrite Heq. left.
Qed.

(** X18. In a reachable state a delete by an authenticated identity
    removes exactly the row with the given [id] when the identity owns
    it, and nothing when the row is someone else's. *)
Theorem delete_transaction_effect (U : uuid) (d : database) (i : nat) (r : Transactions.row) :
  reachable d → transactions d !! i = Some r →
  (Transactions.user_id r = Some U →
     delete_transaction (authenticated U) (Transactions.id r) d
     = Ok (set_transactions (delete i (transactions d)) d))
  ∧ (Transactions.user_id r ≠ Some U →
     delete_transaction (authenticated U) (Transactions.id r) d = Ok d).
Proof.
  intros [] %reachable_database_ok Hi. unfold delete_transaction. split.
  - intros HU. do 2 f_equal.
    apply (filter_key_delete Transactions.id _ _ i r); try done.
    + intros Hn. apply Hn. split; [done|].
      by apply Is_true_true, transactions_policy_authenticated.
    + by intros y Hy [Heq _].
  - intros HU. rewrite filter_all; [by rewrite set_transactions_id|].
    intros y Hy [Heq Hp%Is_true_true%transactions_policy_authenticated].
    apply list_elem_of_lookup in Hy as [j Hj].
    assert (j = i) as ->; [|congruence].
    apply (NoDup_lookup _ j i (Transactions.id r) ok_transactions_key0);
      rewrite list_lookup_fmap; [by rewrite Hj; simpl; rewrite Heq | by rewrite Hi].
Qed.

(** ** Bank accounts *)

Lemma bank_accounts_policy_authenticated (U : uuid) (r : BankAccounts.row) :
  bank_accounts_policy (authenticated U) r = true ↔ BankAccounts.user_id r = Some U.
Proof.
  unfold bank_accounts_policy. cbn [bypassrls auth_uid orb].
  rewrite sql_true_eq. split.
  - by intros (v & [= <-] & ?).
  - intros ?. by exists U.
Qed.

Lemma bank_accounts_constraints_iff (d : database) (others : list BankAccounts.row)
    (NEW : BankAccounts.row) :
  bank_accounts_constraints d others NEW = Ok tt
  ↔ is_Some (BankAccounts.account_number NEW)
    ∧ is_Some (BankAccounts.account_name NEW)
    ∧ is_Some (BankAccounts.bank_name NEW)
    ∧ (BankAccounts.id NEW ∉ BankAccounts.id <$> others)
    ∧ (∀ u, BankAccounts.user_id NEW = Some u → u ∈ AuthUsers.id <$> auth_users d).
Proof.
  unfold bank_accounts_constraints.
  by rewrite !check_bind, check_Ok, !bool_decide_eq_true, references_check.
Qed.

(** X19. A statement of an authenticated identity [U] on the bank
    accounts leaves the accounts of the others as they were, and a read
    by [U] shows accounts of [U] only. *)
Theorem bank_accounts_isolated (U : uuid) (st : bank_account_statement) (d : database)
    (accounts accounts' : list BankAccounts.row) :
  exec_bank_account (authenticated U) st d accounts = Ok accounts' →
  filter (λ r, BankAccounts.user_id r ≠ Some U) accounts'
  = filter (λ r, BankAccounts.user_id r ≠ Some U) accounts
  ∧ (∀ r, r ∈ from_bank_accounts_select (authenticated U) accounts' →
          BankAccounts.user_id r = Some U).
Proof.
  intros H. split.
  - destruct st as [NEW|target set|target]; simpl in H.
    + unfold insert_bank_account in H.
      apply check_bind in H as [Hp%bank_accounts_policy_authenticated H].
      apply bind_Ok in H as ([] & _ & [= <-]).
      rewrite filter_app, filter_cons_False, filter_nil, app_nil_r; [done|].
      by intros Hne.
    + unfold update_bank_account in H.
      destruct (list_find _ accounts) as [[i OLD]|] eqn:Ht; [|by injection H as <-].
      apply check_bind in H as [Hp%bank_accounts_policy_authenticated H].
      apply bind_Ok in H as ([] & _ & [= <-]).
      apply list_find_lookup in Ht
        as [Hi [_ Hold%Is_true_true%bank_accounts_policy_authenticated]].
      by apply (filter_insert_skip _ _ _ OLD); [|intros Hne..].
    + injection H as <-. apply filter_filter_skip.
      intros r Hne [_ Hp%Is_true_true%bank_accounts_policy_authenticated]. done.
  - intros r [Hp _]%list_elem_of_filter.
    by apply Is_true_true, bank_accounts_policy_authenticated in Hp.
Qed.

(** X20. An authenticated identity can link an account exactly when the
    row names it as owner, the identity exists, the three NOT NULL
    columns are given and the [id] is new.  Neither [is_primary] nor the
    account number is looked at: an identity may hold several primary
    accounts, and one account number may be linked many times. *)
Theorem insert_bank_account_iff (U : uuid) (NEW : BankAccounts.row) (d : database)
    (accounts : list BankAccounts.row) :
  insert_bank_account (authenticated U) NEW d accounts = Ok (accounts ++ [NEW])
  ↔ BankAccounts.user_id NEW = Some U
    ∧ U ∈ AuthUsers.id <$> auth_users d
    ∧ is_Some (BankAccounts.account_number NEW)
    ∧ is_Some (BankAccounts.account_name NEW)
    ∧ is_Some (BankAccounts.bank_name NEW)
    ∧ (BankAccounts.id NEW ∉ BankAccounts.id <$> accounts).
Proof.
  unfold insert_bank_account. split.
  - intros H. apply check_bind in H as [Hp%bank_accounts_policy_authenticated H].
    apply bind_Ok in H as ([] & (?&?&?&?&Hu)%bank_accounts_constraints_iff & _).
    split_and!; try done. by apply Hu.
  - intros (HU & Hu & ? & ? & ? & ?).
    apply check_bind. split; [by apply bank_accounts_policy_authenticated|].
    apply bind_Ok. exists tt. split; [|done].
    apply bank_accounts_constraints_iff. split_and!; try done.
    intros u Hu'. rewrite HU in Hu'. by injection Hu' as <-.
Qed.

(** ** The further properties on the sample database *)

Lemma one_profile_per_identity_witness :
  reachable db0
  ∧ ∃ p, filter (λ r, Profiles.id r = AuthUsers.id user_V) (profiles db0) = [p].
Proof.
  assert (Hr : reachable db0) by (exists trace0; vm_compute; reflexivity).
  split; [exact Hr|].
  destruct (one_profile_per_identity db0 Hr) as [Hone _].
  apply (Hone user_V). right. left.
Defined.

Lemma stored_transactions_valid_witness :
  reachable db0
  ∧ deposit "t1" "U" "r1" (numeric_of_int 500) 1600001000 ∈ transactions db0
  ∧ ∃ a, Transactions.amount (deposit "t1" "U" "r1" (numeric_of_int 500) 1600001000) = Some a
       ∧ 0 < a ≤ numeric_of_int 100000000.
Proof.
  assert (Hr : reachable db0) by (exists trace0; vm_compute; reflexivity).
  assert (Hin : deposit "t1" "U" "r1" (numeric_of_int 500) 1600001000 ∈ transactions db0)
    by left.
  split_and!; [exact Hr | exact Hin |].
  exact (proj1 (stored_transactions_valid db0 _ Hr Hin)).
Defined.

Lemma unique_columns_hold_witness :
  reachable db0
  ∧ NoDup (Transactions.id <$> transactions db0)
  ∧ NoDup (omap Profiles.phone_number (profiles db0)).
Proof.
  assert (Hr : reachable db0) by (exists trace0; vm_compute; reflexivity).
  split; [exact Hr|].
  destruct (unique_columns_hold db0 Hr) as (Hid & _ & Hphone & _). by split.
Defined.

Lemma audit_logs_append_only_witness :
  authenticated "V" ≠ service_role
  ∧ delete_audit_log (authenticated "V") "tx-1" db_clash = Ok db_clash
  ∧ update_audit_log (authenticated "V") "tx-1" (λ r, r) db_clash = Ok db_clash.
Proof.
  assert (Hs : authenticated "V" ≠ service_role) by discriminate.
  destruct audit_logs_append_only as (_ & _ & Hupd & Hdel).
  split_and!; [exact Hs | by apply Hdel | by apply Hupd].
Defined.

Lemma audit_logs_insert_open_witness :
  AuditLogs.user_id forged_audit_row = Some "V"
  ∧ "V" ∈ AuthUsers.id <$> auth_users db0
  ∧ is_Some (AuditLogs.action forged_audit_row)
  ∧ is_Some (AuditLogs.table_name forged_audit_row)
  ∧ (AuditLogs.id forged_audit_row ∉ AuditLogs.id <$> audit_logs db0)
  ∧ ∃ d', insert_audit_log anon forged_audit_row db0 = Ok d'
        ∧ forged_audit_row ∈ from_audit_logs_select (authenticated "V") d'.
Proof.
  assert (Hu : "V" ∈ AuthUsers.id <$> auth_users db0) by (right; left).
  assert (Ha : is_Some (AuditLogs.action forged_audit_row)) by (by eexists).
  assert (Ht : is_Some (AuditLogs.table_name forged_audit_row)) by (by eexists).
  assert (Hid : AuditLogs.id forged_audit_row ∉ AuditLogs.id <$> audit_logs db0)
    by apply not_elem_of_nil.
  split_and!; [reflexivity | exact Hu | exact Ha | exact Ht | exact Hid |].
  destruct (audit_logs_insert_open anon forged_audit_row db0 "V" eq_refl Hu Ha Ht Hid)
    as (d' & Hins & _ & Hsee & _).
  by exists d'.
Defined.

Lemma update_stamps_updated_at_witness :
  profiles_target (authenticated "U") "U" db0 = Some (0%nat, profile_U)
  ∧ update_profile pg0 (authenticated "U") "U" (set_balance (numeric_of_int 94000)) db0
    = Ok db_withdrawn
  ∧ ∃ NEW, profiles db_withdrawn !! 0%nat = Some NEW
         ∧ Profiles.updated_at NEW = Some (now pg0).
Proof.
  assert (Ht : profiles_target (authenticated "U") "U" db0 = Some (0%nat, profile_U))
    by (vm_compute; reflexivity).
  assert (Hu : update_profile pg0 (authenticated "U") "U"
                 (set_balance (numeric_of_int 94000)) db0 = Ok db_withdrawn)
    by (vm_compute; reflexivity).
  split_and!; [exact Ht | exact Hu |].
  destruct (update_stamps_updated_at pg0 (authenticated "U") "U"
              (set_balance (numeric_of_int 94000)) db0 db_withdrawn 0%nat profile_U Ht Hu)
    as [(NEW & Hnew & Hstamp & _) _].
  by exists NEW.
Defined.

Lemma profiles_update_allows_owner_witness :
  reachable db0
  ∧ profiles db0 !! 0%nat = Some profile_U
  ∧ (gen_random_uuid pg0 0 ∉ AuditLogs.id <$> audit_logs db0)
  ∧ ∃ d', update_profile pg0 (authenticated "U") "U"
            (set_balance (numeric_of_int 99999999)) db0 = Ok d'
        ∧ profiles d' =
            <[0%nat:=update_updated_at_column pg0
                       (set_balance (numeric_of_int 99999999) profile_U)]> (profiles db0).
Proof.
  assert (Hr : reachable db0) by (exists trace0; vm_compute; reflexivity).
  assert (Hfresh : gen_random_uuid pg0 0 ∉ AuditLogs.id <$> audit_logs db0)
    by apply not_elem_of_nil.
  split_and!; [exact Hr | reflexivity | exact Hfresh |].
  exact (profiles_update_allows_owner pg0 "U" (set_balance (numeric_of_int 99999999))
           db0 0%nat profile_U Hr eq_refl eq_refl eq_refl eq_refl Hfresh).
Defined.

Lemma profiles_of_others_untouched_witness :
  statement_session
    (UpdateProfile (authenticated "U") "U" (set_balance (numeric_of_int 94000)))
    = Some (authenticated "U")
  ∧ exec pg0 (UpdateProfile (authenticated "U") "U" (set_balance (numeric_of_int 94000))) db0
    = Ok db_withdrawn
  ∧ profiles db0 !! 1%nat = Some profile_V
  ∧ Profiles.id profile_V ≠ "U"
  ∧ profiles db_withdrawn !! 1%nat = Some profile_V.
Proof.
  assert (He : exec pg0 (UpdateProfile (authenticated "U") "U"
                           (set_balance (numeric_of_int 94000))) db0 = Ok db_withdrawn)
    by (vm_compute; reflexivity).
  assert (Hne : Profiles.id profile_V ≠ "U") by discriminate.
  split_and!; [reflexivity | exact He | reflexivity | exact Hne |].
  exact (profiles_of_others_untouched pg0 "U"
           (UpdateProfile (authenticated "U") "U" (set_balance (numeric_of_int 94000)))
           db0 db_withdrawn eq_refl He 1%nat profile_V eq_refl Hne).
Defined.

Lemma transactions_of_others_untouched_witness :
  statement_session (DeleteTransaction (authenticated "U") "t1") = Some (authenticated "U")
  ∧ exec pg0 (DeleteTransaction (authenticated "U") "t1") db0
    = Ok (set_transactions (delete 0%nat (transactions db0)) db0)
  ∧ filter (λ r, Transactions.user_id r ≠ Some "U") (delete 0%nat (transactions db0))
    = filter (λ r, Transactions.user_id r ≠ Some "U") (transactions db0).
Proof.
  assert (He : exec pg0 (DeleteTransaction (authenticated "U") "t1") db0
               = Ok (set_transactions (delete 0%nat (transactions db0)) db0))
    by (vm_compute; reflexivity).
  split_and!; [reflexivity | exact He |].
  exact (transactions_of_others_untouched pg0 "U"
           (DeleteTransaction (authenticated "U") "t1") db0 _ eq_refl He).
Defined.

Lemma verification_payment_insert_iff_witness :
  User_id {| User_id := "U" |} = "U"
  ∧ "U" ∈ AuthUsers.id <$> auth_users db0
  ∧ ∃ d', insert_transaction (authenticated "U")
            (verification_payment (pg_at 1700000100) {| User_id := "U" |}) db0 = Ok d'.
Proof.
  split_and!; [reflexivity | left |].
  apply (verification_payment_insert_iff (pg_at 1700000100) "U" {| User_id := "U" |} db0).
  split_and!; [reflexivity | left | |].
  - vm_compute. intros H. repeat (apply elem_of_cons in H as [H|H]; [discriminate|]).
    by apply elem_of_nil in H.
  - vm_compute. intros H. repeat (apply elem_of_cons in H as [H|H]; [discriminate|]).
    by apply elem_of_nil in H.
Defined.

Lemma handleVerificationPayment_bookkeeping_witness :
  user (auth world0) = Some {| User_id := "U" |}
  ∧ profile (auth world0) = Some profile_U
  ∧ State.loading (view (handleVerificationPayment refreshProfile0 rq_offline rq0 rq0 world0).1)
    = false
  ∧ sent (handleVerificationPayment refreshProfile0 rq_offline rq0 rq0 world0).1
    = sent world0 ++ [insert_transactions]
  ∧ db (handleVerificationPayment refreshProfile0 rq_offline rq0 rq0 world0).1 = db world0.
Proof.
  destruct (handleVerificationPayment_bookkeeping refreshProfile0 rq_offline rq0 rq0 world0
              {| User_id := "U" |} profile_U eq_refl eq_refl) as (Hload & _ & _ & Herr).
  destruct (Herr (FetchError "Failed to fetch") eq_refl) as (Hsent & _ & _ & Hdb & _).
  split_and!; [reflexivity | reflexivity | exact Hload | exact Hsent | exact Hdb].
Defined.

Lemma handleVerificationPayment_shows_new_row_witness :
  insert_transaction (session rq0) (verification_payment (server rq0) {| User_id := "U" |})
    (db world0) = Ok db_paid
  ∧ (∀ r, r ∈ transactions (db world0) → Transactions.user_id r = Some "U" →
          ∃ t, Transactions.created_at r = Some t ∧ t < now (server rq0))
  ∧ head (State.transactions
            (view (handleVerificationPayment refreshProfile0 rq0 rq0 rq0 world0).1))
    = Some (verification_payment (server rq0) {| User_id := "U" |}).
Proof.
  assert (Hi : insert_transaction (session rq0)
                 (verification_payment (server rq0) {| User_id := "U" |}) (db world0)
               = Ok db_paid) by (vm_compute; reflexivity).
  assert (Hold : ∀ r, r ∈ transactions (db world0) → Transactions.user_id r = Some "U" →
                      ∃ t, Transactions.created_at r = Some t ∧ t < now (server rq0)).
  { intros r Hr _. simpl in Hr.
    repeat (apply elem_of_cons in Hr as [->|Hr]); [..|by apply elem_of_nil in Hr];
      (eexists; split; [reflexivity|vm_compute; reflexivity]). }
  split_and!; [exact Hi | exact Hold |].
  exact (handleVerificationPayment_shows_new_row refreshProfile0 rq0 rq0 rq0 world0
           {| User_id := "U" |} profile_U db_paid eq_refl eq_refl eq_refl eq_refl eq_refl
           Hi Hold).
Defined.

Lemma fetchTransactions_newest_witness :
  user (auth world0) = Some {| User_id := "U" |}
  ∧ fault rq0 = None
  ∧ ∃ rest,
      State.transactions (view (fetchTransactions rq0 world0)) ++ rest
        ≡ₚ eq_user_id "U" (from_transactions_select (session rq0) (db world0)).
Proof.
  split_and!; [reflexivity | reflexivity |].
  destruct (fetchTransactions_newest rq0 world0 {| User_id := "U" |} eq_refl eq_refl)
    as (rest & Hperm & _).
  by exists rest.
Defined.

Lemma stored_transactions_rendering_witness :
  reachable db0
  ∧ deposit "t3" "U" "r3" (numeric_of_int 900) 1600003000 ∈ transactions db0
  ∧ ∃ t, Transactions.type (deposit "t3" "U" "r3" (numeric_of_int 900) 1600003000) = Some t
       ∧ icon (getTransactionIcon t) ≠ History.
Proof.
  assert (Hr : reachable db0) by (exists trace0; vm_compute; reflexivity).
  assert (Hin : deposit "t3" "U" "r3" (numeric_of_int 900) 1600003000 ∈ transactions db0)
    by (right; right; left).
  split_and!; [exact Hr | exact Hin |].
  destruct (stored_transactions_rendering db0 _ Hr Hin) as [(t & Ht & Hicon & _) _].
  by exists t.
Defined.

Lemma new_identity_dashboard_witness :
  create_identity pg0 user_X (set_profiles [] (set_auth_users [] db0))
    = Ok (match create_identity pg0 user_X (set_profiles [] (set_auth_users [] db0)) with
          | Ok d => d
          | Err _ => db0
          end)
  ∧ ∃ p, verification_alert p = true ∧ withdraw_disabled p = true
       ∧ welcome_name p = "User".
Proof.
  assert (Hc : create_identity pg0 user_X (set_profiles [] (set_auth_users [] db0))
               = Ok (match create_identity pg0 user_X
                             (set_profiles [] (set_auth_users [] db0)) with
                     | Ok d => d
                     | Err _ => db0
                     end)) by (vm_compute; reflexivity).
  split; [exact Hc|].
  destruct (new_identity_dashboard pg0 user_X _ _ Hc)
    as (p & _ & _ & Halert & Hwithdraw & _ & _ & Huser).
  exists p. split_and!; [exact Halert | exact Hwithdraw |].
  apply Huser. left. reflexivity.
Defined.

Lemma handle_new_user_succeeds_iff_witness :
  reachable db0
  ∧ (AuthUsers.id user_X ∉ AuthUsers.id <$> auth_users db0)
  ∧ ¬ ∃ d', create_identity pg0 user_X db0 = Ok d'.
Proof.
  assert (Hr : reachable db0) by (exists trace0; vm_compute; reflexivity).
  assert (Hid : AuthUsers.id user_X ∉ AuthUsers.id <$> auth_users db0).
  { vm_compute. intros H. repeat (apply elem_of_cons in H as [H|H]; [discriminate|]).
    by apply elem_of_nil in H. }
  split_and!; [exact Hr | exact Hid |].
  destruct (handle_new_user_succeeds_iff pg0 user_X db0 Hr Hid) as [Hphone Hcreate].
  intros Hex. apply (proj1 Hcreate) in Hex.
  pose proof (proj1 Hphone Hex) as Hfree.
  apply (Hfree "+2348000000001" eq_refl). left.
Defined.

Lemma transactions_update_allows_owner_witness :
  reachable db0
  ∧ transactions db0 !! 0%nat = Some (deposit "t1" "U" "r1" (numeric_of_int 500) 1600001000)
  ∧ update_transaction (authenticated "U") "t1" (set_status "pending") db0
    = Ok (set_transactions
            (<[0%nat:=set_status "pending"
                        (deposit "t1" "U" "r1" (numeric_of_int 500) 1600001000)]>
               (transactions db0)) db0).
Proof.
  assert (Hr : reachable db0) by (exists trace0; vm_compute; reflexivity).
  split_and!; [exact Hr | reflexivity |].
  apply (transactions_update_allows_owner "U" (set_status "pending") db0 0%nat
           (deposit "t1" "U" "r1" (numeric_of_int 500) 1600001000)
           (numeric_of_int 500) "deposit" Hr); try reflexivity.
  - vm_compute. split; [reflexivity | discriminate].
  - left.
  - intros st [= <-]. left.
Defined.

Lemma delete_transaction_effect_witness :
  reachable db0
  ∧ transactions db0 !! 1%nat = Some (deposit "t2" "V" "r2" (numeric_of_int 700) 1600002000)
  ∧ delete_transaction (authenticated "U") "t2" db0 = Ok db0
  ∧ delete_transaction (authenticated "V") "t2" db0
    = Ok (set_transactions (delete 1%nat (transactions db0)) db0).
Proof.
  assert (Hr : reachable db0) by (exists trace0; vm_compute; reflexivity).
  split_and!; [exact Hr | reflexivity | |].
  - apply (delete_transaction_effect "U" db0 1%nat
             (deposit "t2" "V" "r2" (numeric_of_int 700) 1600002000) Hr eq_refl).
    discriminate.
  - apply (delete_transaction_effect "V" db0 1%nat
             (deposit "t2" "V" "r2" (numeric_of_int 700) 1600002000) Hr eq_refl).
    reflexivity.
Defined.

Lemma bank_accounts_isolated_witness :
  exec_bank_account (authenticated "U") (DeleteBankAccount "b-v") db0
    [account_U "b-1" true; account_V]
  = Ok [account_U "b-1" true; account_V]
  ∧ filter (λ r, BankAccounts.user_id r ≠ Some "U") [account_U "b-1" true; account_V]
    = filter (λ r, BankAccounts.user_id r ≠ Some "U") [account_U "b-1" true; account_V].
Proof.
  assert (He : exec_bank_account (authenticated "U") (DeleteBankAccount "b-v") db0
                 [account_U "b-1" true; account_V]
               = Ok [account_U "b-1" true; account_V]) by (vm_compute; reflexivity).
  split; [exact He|].
  exact (proj1 (bank_accounts_isolated "U" _ db0 _ _ He)).
Defined.

Lemma insert_bank_account_iff_witness :
  insert_bank_account (authenticated "U") (account_U "b-2" true) db0
    [account_U "b-1" true; account_V]
  = Ok ([account_U "b-1" true; account_V] ++ [account_U "b-2" true]).
Proof.
  apply (insert_bank_account_iff "U" (account_U "b-2" true) db0
           [account_U "b-1" true; account_V]).
  split_and!; [reflexivity | left | by eexists | by eexists | by eexists |].
  vm_compute. intros H. repeat (apply elem_of_cons in H as [H|H]; [discriminate|]).
  by apply elem_of_nil in H.
Defined.
